(** * hops.homps: integration parameters and elementary operators

    A shallow embedding of [hops/homps/tensormethod_parameters.py] and
    [hops/homps/operators.py].  Python values are an inductive type, a call
    that may raise returns a [result], keyword arguments are a finite map
    from names to values, and a float is an IEEE binary64 number
    ([spec_float] at precision 53). *)

From Stdlib Require Import ZArith String List Bool Lia.
From Stdlib Require Import Floats.SpecFloat.
From stdpp Require Import base option list gmap strings.

Local Open Scope Z_scope.

(** ** The fragment of Python the two modules rely on *)

Module Py.

(** [float]: binary64. *)
Definition prec : Z := 53.
Definition emax : Z := 1024.

Definition fzero : spec_float := S754_zero false.
Definition fnan : spec_float := S754_nan.

(** [float(z)] for an [int] [z]: the nearest binary64 number. *)
Definition float_of_int (z : Z) : spec_float := binary_normalize prec emax z 0 false.

(** Plain values a caller can pass as a field. *)
Inductive value :=
| PyNone
| PyBool (b : bool)
| PyInt (z : Z)
| PyFloat (f : spec_float)
| PyStr (s : string).

(** The name [type(v).__name__]. *)
Definition type_name (v : value) : string :=
  match v with
  | PyNone => "NoneType"
  | PyBool _ => "bool"
  | PyInt _ => "int"
  | PyFloat _ => "float"
  | PyStr _ => "str"
  end.

(** What the interpreter itself reports as a [TypeError]. *)
Inductive type_error :=
| unexpected_keyword_argument
| missing_required_arguments (names : list string)
| unsupported_operand (op lhs rhs : string)
| unhashable_type (cls : string)
| cannot_overwrite_attribute (attr cls : string).

Inductive exn :=
| ValueError (msg : string)
| NotImplementedError (msg : string)
| TypeError (why : type_error)
| AttributeError (attr : string)
| IndexError (axis : nat)
| SyntaxError (line : nat)
| BeartypeCallHintParamViolation (param : string).

Inductive result (A : Type) :=
| Ok (a : A)
| Raise (e : exn).
Arguments Ok {A} a.
Arguments Raise {A} e.

#[global] Instance result_ret : MRet result := fun A => @Ok A.
#[global] Instance result_bind : MBind result :=
  fun A B k m => match m with Ok a => k a | Raise e => Raise e end.
#[global] Instance result_fmap : FMap result :=
  fun A B f m => match m with Ok a => Ok (f a) | Raise e => Raise e end.

Definition is_ok {A} (m : result A) : bool :=
  match m with Ok _ => true | Raise _ => false end.

(** [v <= 0].  A [bool] is an [int]; a float is compared with the integer
    exactly, and every ordered comparison with NaN is [False]. *)
Definition le_zero (v : value) : result bool :=
  match v with
  | PyInt z => Ok (z <=? 0)
  | PyBool b => Ok (Z.b2z b <=? 0)
  | PyFloat f => Ok (SFleb f fzero)
  | _ => Raise (TypeError (unsupported_operand "<=" (type_name v) "int"))
  end.

(** [v > 0], as a truth value ([False] where the comparison is undefined). *)
Definition gt_zero (v : value) : bool :=
  match v with
  | PyInt z => 0 <? z
  | PyBool b => 0 <? Z.b2z b
  | PyFloat f => SFltb fzero f
  | _ => false
  end.

(** *** Keyword calls of a [@beartype] function *)

Inductive hint := hint_int | hint_float.

(** [isinstance(v, int)] and [isinstance(v, float)]: [bool] is a subclass of
    [int]; an [int] is not a [float]. *)
Definition conforms (h : hint) (v : value) : bool :=
  match h, v with
  | hint_int, (PyInt _ | PyBool _) => true
  | hint_float, PyFloat _ => true
  | _, _ => false
  end.

Definition signature := list (string * hint).

(** The wrapper beartype generates: every parameter that was passed is
    checked against its hint, in the order of the signature, before the
    wrapped function is called. *)
Fixpoint beartype_check (sig : signature) (kwargs : gmap string value) : result unit :=
  match sig with
  | [] => Ok tt
  | (name, h) :: sig' =>
      match kwargs !! name with
      | Some v =>
          if conforms h v then beartype_check sig' kwargs
          else Raise (BeartypeCallHintParamViolation name)
      | None => beartype_check sig' kwargs
      end
  end.

(** The interpreter's binding of keywords to parameters: a keyword that
    names no parameter is refused first, then the parameters left
    without a value. *)
Definition reject_unexpected (sig : signature) (kwargs : gmap string value) : result unit :=
  if decide (dom kwargs ⊆ list_to_set sig.*1) then Ok tt
  else Raise (TypeError unexpected_keyword_argument).

(** The wrapper [@beartype] installs has keyword parameters of its own,
    all named [__beartype_...]; a keyword of the call with such a name is
    taken by the wrapper and not passed on.  [reject_unexpected] describes
    calls without such keywords. *)
Definition wrapper_keyword (name : string) : bool := String.prefix "__beartype_" name.

Definition missing (sig : signature) (kwargs : gmap string value) : list string :=
  filter (fun name => kwargs !! name = None) sig.*1.

(** The two conditions the repository's callers see as an argument mismatch. *)
Definition is_argument_mismatch (e : exn) : bool :=
  match e with
  | TypeError _ | BeartypeCallHintParamViolation _ => true
  | _ => false
  end.

End Py.

Import Py.

(** ** hops/homps/tensormethod_parameters.py *)

Inductive MPSIntegrationMode := TDVP1SITE | TDVP2SITE | TEBD | RUNGEKUTTA.

#[global] Instance MPSIntegrationMode_eq_dec : EqDecision MPSIntegrationMode.
Proof. solve_decision. Defined.

(** [MPSIntegrationMode.value] *)
Definition MPSIntegrationMode_value (m : MPSIntegrationMode) : string :=
  match m with
  | TDVP1SITE => "TDVP1"
  | TDVP2SITE => "TDVP2"
  | TEBD => "TEBD"
  | RUNGEKUTTA => "RK"
  end.

Definition positivity_test (value : value) (custom_name : string) : result unit :=
  c ← le_zero value;
  if c : bool then
    let errstr := custom_name +:+ " must be positive!" in
    Raise (ValueError errstr)
  else Ok tt.

Module TDVP1SiteParameters.

Record t := { numiter_lanczos : value; max_bond_dimension : value }.

Definition __slots__ : list string := ["numiter_lanczos"; "max_bond_dimension"].

Definition sig : signature :=
  [("numiter_lanczos", hint_int); ("max_bond_dimension", hint_int)].

Definition __init__ (numiter_lanczos max_bond_dimension : value) : result t :=
  _ ← positivity_test numiter_lanczos "number of Lanczos iterations";
  _ ← positivity_test max_bond_dimension "maximum bond dimension";
  Ok {| numiter_lanczos := numiter_lanczos;
        max_bond_dimension := max_bond_dimension |}.

(** The class called with keyword arguments only, as [generate_parameters] does. *)
Definition call (kwargs : gmap string value) : result t :=
  _ ← beartype_check sig kwargs;
  _ ← reject_unexpected sig kwargs;
  match kwargs !! "numiter_lanczos", kwargs !! "max_bond_dimension" with
  | Some a, Some b => __init__ a b
  | _, _ => Raise (TypeError (missing_required_arguments (missing sig kwargs)))
  end.

Definition fields (p : t) : list value := [numiter_lanczos p; max_bond_dimension p].

End TDVP1SiteParameters.

Module TDVP2SiteParameters.

Record t := {
  numiter_lanczos : value;
  max_bond_dimension : value;
  relative_svd_tolerance : value }.

Definition __slots__ : list string :=
  ["numiter_lanczos"; "max_bond_dimension"; "relative_svd_tolerance"].

Definition sig : signature :=
  [("numiter_lanczos", hint_int); ("max_bond_dimension", hint_int);
   ("relative_svd_tolerance", hint_float)].

Definition __init__ (numiter_lanczos max_bond_dimension relative_svd_tolerance : value)
  : result t :=
  _ ← positivity_test numiter_lanczos "number of Lanczos iterations";
  _ ← positivity_test max_bond_dimension "maximum bond dimension";
  _ ← positivity_test relative_svd_tolerance "relative SVD tolerance";
  Ok {| numiter_lanczos := numiter_lanczos;
        max_bond_dimension := max_bond_dimension;
        relative_svd_tolerance := relative_svd_tolerance |}.

(** The class called with keyword arguments only, as [generate_parameters] does. *)
Definition call (kwargs : gmap string value) : result t :=
  _ ← beartype_check sig kwargs;
  _ ← reject_unexpected sig kwargs;
  match kwargs !! "numiter_lanczos", kwargs !! "max_bond_dimension",
        kwargs !! "relative_svd_tolerance" with
  | Some a, Some b, Some c => __init__ a b c
  | _, _, _ => Raise (TypeError (missing_required_arguments (missing sig kwargs)))
  end.

Definition fields (p : t) : list value :=
  [numiter_lanczos p; max_bond_dimension p; relative_svd_tolerance p].

End TDVP2SiteParameters.

Module TEBDParameters.

Record t := { max_bond_dimension : value; svd_relative_tolerance : value }.

Definition __slots__ : list string := ["max_bond_dimension"; "svd_relative_tolerance"].

Definition sig : signature :=
  [("max_bond_dimension", hint_int); ("svd_relative_tolerance", hint_float)].

Definition __init__ (max_bond_dimension svd_relative_tolerance : value) : result t :=
  _ ← positivity_test max_bond_dimension "maximum bond dimension";
  _ ← positivity_test svd_relative_tolerance "SVD relative tolerance";
  Ok {| max_bond_dimension := max_bond_dimension;
        svd_relative_tolerance := svd_relative_tolerance |}.

(** The class called with keyword arguments only, as [generate_parameters] does. *)
Definition call (kwargs : gmap string value) : result t :=
  _ ← beartype_check sig kwargs;
  _ ← reject_unexpected sig kwargs;
  match kwargs !! "max_bond_dimension", kwargs !! "svd_relative_tolerance" with
  | Some a, Some b => __init__ a b
  | _, _ => Raise (TypeError (missing_required_arguments (missing sig kwargs)))
  end.

Definition fields (p : t) : list value := [max_bond_dimension p; svd_relative_tolerance p].

End TEBDParameters.

(** An instance of one of the three subclasses of [bf.ABCParameter] the
    module declares. *)
Inductive parameters :=
| TDVP1 (p : TDVP1SiteParameters.t)
| TDVP2 (p : TDVP2SiteParameters.t)
| TEBDp (p : TEBDParameters.t).

(** The [mode] argument is not checked by any decorator: it is a member of
    the enumeration or some other object.  Of another object the function
    uses only that it compares unequal to every member and its rendering
    [str(mode)] inside the f-string.  An object whose class defines
    [==] itself is a [mode_object], further down. *)
Inductive mode_argument :=
| Member (m : MPSIntegrationMode)
| Other (str : string).

(** [mode == member] *)
Definition mode_eq (mode : mode_argument) (member : MPSIntegrationMode) : bool :=
  match mode with
  | Member m => bool_decide (m = member)
  | Other _ => false
  end.

Definition mode_str (mode : mode_argument) : string :=
  match mode with
  | Member m =>
      "MPSIntegrationMode." +:+
      match m with
      | TDVP1SITE => "TDVP1SITE"
      | TDVP2SITE => "TDVP2SITE"
      | TEBD => "TEBD"
      | RUNGEKUTTA => "RUNGEKUTTA"
      end
  | Other s => s
  end.

(** [kwargs] is the dictionary the body receives: the keywords of the call
    other than [mode]. *)
Definition generate_parameters (mode : mode_argument) (kwargs : gmap string value)
  : result parameters :=
  if mode_eq mode TDVP1SITE then TDVP1 <$> TDVP1SiteParameters.call kwargs
  else if mode_eq mode TDVP2SITE then TDVP2 <$> TDVP2SiteParameters.call kwargs
  else if mode_eq mode TEBD then TEBDp <$> TEBDParameters.call kwargs
  else if mode_eq mode RUNGEKUTTA then
    Raise (NotImplementedError "Runge-Kutta integration is not yet implemented.")
  else Raise (ValueError ("Invalid mode " +:+ mode_str mode +:+ ".")).

(** The signature of the constructor a member dispatches to; RUNGEKUTTA has
    none. *)
Definition constructor_sig (m : MPSIntegrationMode) : signature :=
  match m with
  | TDVP1SITE => TDVP1SiteParameters.sig
  | TDVP2SITE => TDVP2SiteParameters.sig
  | TEBD => TEBDParameters.sig
  | RUNGEKUTTA => []
  end.

(** Any object passed as [mode], also one whose class defines [==] itself:
    [obj_eq] is what [mode == member] returns, [obj_str] is [str(mode)]. *)
Record mode_object := { obj_str : string; obj_eq : MPSIntegrationMode -> bool }.

Definition object_of (mode : mode_argument) : mode_object :=
  {| obj_str := mode_str mode; obj_eq := mode_eq mode |}.

(** [generate_parameters] on any object. *)
Definition generate_parameters_obj (mode : mode_object) (kwargs : gmap string value)
  : result parameters :=
  if obj_eq mode TDVP1SITE then TDVP1 <$> TDVP1SiteParameters.call kwargs
  else if obj_eq mode TDVP2SITE then TDVP2 <$> TDVP2SiteParameters.call kwargs
  else if obj_eq mode TEBD then TEBDp <$> TEBDParameters.call kwargs
  else if obj_eq mode RUNGEKUTTA then
    Raise (NotImplementedError "Runge-Kutta integration is not yet implemented.")
  else Raise (ValueError ("Invalid mode " +:+ obj_str mode +:+ ".")).


(** *** Sealed instances

    An instance of a class that declares [__slots__] stores its attributes
    in the slots of the class and of its base classes, and has a [__dict__]
    only if a base class leaves it one.  The base class [bf.ABCParameter]
    belongs to the binfootprint package: its layout is a parameter. *)

Record layout := { slots : list string; has_dict : bool }.

(** The layout of a subclass declaring [own] as its [__slots__]. *)
Definition subclass_layout (base : layout) (own : list string) : layout :=
  {| slots := own ++ slots base; has_dict := has_dict base |}.

(** [setattr(o, name, v)] on an instance with attribute values [o]. *)
Definition setattr (l : layout) (o : gmap string value) (name : string) (v : value)
  : result (gmap string value) :=
  if bool_decide (name ∈ slots l) || has_dict l then Ok (<[name := v]> o)
  else Raise (AttributeError name).


Definition declared_slots (p : parameters) : list string :=
  match p with
  | TDVP1 _ => TDVP1SiteParameters.__slots__
  | TDVP2 _ => TDVP2SiteParameters.__slots__
  | TEBDp _ => TEBDParameters.__slots__
  end.

(** The attribute values of a record, as the constructor assigned them. *)
Definition attributes (p : parameters) : gmap string value :=
  match p with
  | TDVP1 q =>
      {[ "numiter_lanczos" := TDVP1SiteParameters.numiter_lanczos q;
         "max_bond_dimension" := TDVP1SiteParameters.max_bond_dimension q ]}
  | TDVP2 q =>
      {[ "numiter_lanczos" := TDVP2SiteParameters.numiter_lanczos q;
         "max_bond_dimension" := TDVP2SiteParameters.max_bond_dimension q;
         "relative_svd_tolerance" := TDVP2SiteParameters.relative_svd_tolerance q ]}
  | TEBDp q =>
      {[ "max_bond_dimension" := TEBDParameters.max_bond_dimension q;
         "svd_relative_tolerance" := TEBDParameters.svd_relative_tolerance q ]}
  end.

Definition record_fields (p : parameters) : list value :=
  match p with
  | TDVP1 q => TDVP1SiteParameters.fields q
  | TDVP2 q => TDVP2SiteParameters.fields q
  | TEBDp q => TEBDParameters.fields q
  end.

(** *** The [@dataclass] decorator with its default flags

    [_hash_action] is the table of [dataclasses.py], keyed by
    [(unsafe_hash, eq, frozen, has_explicit_hash)]. *)

Inductive hash_action := hash_unchanged | hash_set_none | hash_add | hash_exception.

Definition _hash_action (unsafe_hash eq frozen has_explicit_hash : bool) : hash_action :=
  match unsafe_hash, eq, frozen, has_explicit_hash with
  | false, false, false, false => hash_unchanged
  | false, false, false, true => hash_unchanged
  | false, false, true, false => hash_unchanged
  | false, false, true, true => hash_unchanged
  | false, true, false, false => hash_set_none
  | false, true, false, true => hash_unchanged
  | false, true, true, false => hash_add
  | false, true, true, true => hash_unchanged
  | true, false, false, false => hash_add
  | true, false, false, true => hash_exception
  | true, false, true, false => hash_add
  | true, false, true, true => hash_exception
  | true, true, false, false => hash_add
  | true, true, false, true => hash_exception
  | true, true, true, false => hash_add
  | true, true, true, true => hash_exception
  end.

Record dataclass_flags := { flag_eq : bool; flag_frozen : bool; flag_unsafe_hash : bool }.

(** [@dataclass] without arguments. *)
Definition default_flags : dataclass_flags :=
  {| flag_eq := true; flag_frozen := false; flag_unsafe_hash := false |}.

Module HIParamsWTensors.

(** [HIParams] (hops.core.hierarchy_parameters) is not among the sources:
    [B] stands for the values of the dataclass fields the class inherits
    from it. *)
Record t (B : Type) := { base : B; TensP : parameters }.
Arguments base {B} _.
Arguments TensP {B} _.

Definition __slots__ : list string := ["TensP"].

(** The fields the class body annotates. *)
Definition annotations : list string := ["TensP"].

(** What a caller can pass for [TensP]. *)
Inductive argument :=
| Plain (v : value)
| Instance (p : parameters).

(** The generated [__init__] under [@beartype]: the hint of [TensP] is
    checked, then the field is assigned. *)
Definition __init__ {B} (base : B) (TensP : argument) : result (t B) :=
  match TensP with
  | Instance p => Ok {| base := base; TensP := p |}
  | Plain _ => Raise (BeartypeCallHintParamViolation "TensP")
  end.

(** The generated [__eq__] for two instances of the class: the tuples of
    all fields are compared, each field with its own equality. *)
Definition __eq__ {B} (base_eq : B -> B -> bool) (param_eq : parameters -> parameters -> bool)
  (self other : t B) : bool :=
  base_eq (base self) (base other) && param_eq (TensP self) (TensP other).

(** The class body assigns no [__hash__]. *)
Definition has_explicit_hash : bool := false.

(** The [__hash__] attribute of the class after decoration: [inherited]
    is what the class would inherit, [generated] the hash of the tuple of
    fields that [_hash_add] would install.  [None] is Python's
    [__hash__ = None]. *)
Definition __hash__ {B} (inherited : option (t B -> Z)) (generated : t B -> Z)
  : result (option (t B -> Z)) :=
  match _hash_action (flag_unsafe_hash default_flags) (flag_eq default_flags)
          (flag_frozen default_flags) has_explicit_hash with
  | hash_unchanged => Ok inherited
  | hash_set_none => Ok None
  | hash_add => Ok (Some generated)
  | hash_exception =>
      Raise (TypeError (cannot_overwrite_attribute "__hash__" "HIParamsWTensors"))
  end.

(** [hash(x)] *)
Definition hash {B} (inherited : option (t B -> Z)) (generated : t B -> Z) (x : t B)
  : result Z :=
  h ← __hash__ inherited generated;
  match h with
  | Some f => Ok (f x)
  | None => Raise (TypeError (unhashable_type "HIParamsWTensors"))
  end.

End HIParamsWTensors.

(** ** hops/homps/operators.py *)

(** *** The fragment of numpy the module uses *)

Module np.

(** A two-dimensional float64 array, as the list of its rows. *)
Abbreviation ndarray := (list (list spec_float)).

Definition ncols {A} (a : list (list A)) : nat :=
  match a with
  | [] => 0%nat
  | row :: _ => length row
  end.

Definition shape {A} (a : list (list A)) : nat * nat := (length a, ncols a).

Definition entry {A} (a : list (list A)) (r k : nat) : option A :=
  row ← a !! r; row !! k.

(** [np.zeros((rows, cols))]; the memory a large array needs is not
    modelled. *)
Definition zeros (shp : Z * Z) : result ndarray :=
  let '(rows, cols) := shp in
  if (rows <? 0) || (cols <? 0) then Raise (ValueError "negative dimensions are not allowed")
  else Ok (replicate (Z.to_nat rows) (replicate (Z.to_nat cols) fzero)).

(** [np.sqrt(z)] of a Python [int]: converted to float64, then the
    correctly rounded square root. *)
Definition sqrt (z : Z) : spec_float := SFsqrt prec emax (float_of_int z).

(** An index along an axis of length [n]: negative indices count from the
    end, anything else out of range raises. *)
Definition axis_index (axis n : nat) (i : Z) : result nat :=
  if (0 <=? i) && (i <? Z.of_nat n) then Ok (Z.to_nat i)
  else if (- Z.of_nat n <=? i) && (i <? 0) then Ok (Z.to_nat (i + Z.of_nat n))
  else Raise (IndexError axis).

(** [a[i, j] = v] *)
Definition setitem (a : ndarray) (i j : Z) (v : spec_float) : result ndarray :=
  r ← axis_index 0 (length a) i;
  c ← axis_index 1 (ncols a) j;
  Ok (alter (fun row => <[c := v]> row) r a).

(** [a.T] *)
Definition transpose {A} (d : A) (a : list (list A)) : list (list A) :=
  (fun k => (fun row => default d (row !! k)) <$> a) <$> seq 0 (ncols a).

(** complex128 *)
Definition complex : Type := spec_float * spec_float.

Definition complex_of_int (z : Z) : complex := (float_of_int z, fzero).

(** The literal [1j], and unary minus on a complex number. *)
Definition imag_unit : complex := (fzero, float_of_int 1).
Definition cneg (c : complex) : complex := (SFopp c.1, SFopp c.2).

Abbreviation carray := (list (list complex)).

(** Arrays live in a store; [np.array(rows, dtype=complex)] allocates a new
    one on every call. *)
Definition array (rows : carray) (σ : gmap positive carray) : positive * gmap positive carray :=
  let l := fresh (dom σ) in (l, <[l := rows]> σ).

(** Complex arithmetic and the matrix product, for stating the algebra. *)
Definition cadd (a b : complex) : complex :=
  (SFadd prec emax a.1 b.1, SFadd prec emax a.2 b.2).

Definition cmul (a b : complex) : complex :=
  (SFsub prec emax (SFmul prec emax a.1 b.1) (SFmul prec emax a.2 b.2),
   SFadd prec emax (SFmul prec emax a.1 b.2) (SFmul prec emax a.2 b.1)).

Definition ceqb (a b : complex) : bool := SFeqb a.1 b.1 && SFeqb a.2 b.2.

Definition dot (u v : list complex) : complex :=
  foldr cadd (complex_of_int 0) (zip_with cmul u v).

Definition matmul (a b : carray) : carray :=
  (fun row => (fun k => dot row ((fun r => default (complex_of_int 0) (r !! k)) <$> b))
                <$> seq 0 (ncols b)) <$> a.

Definition scale (c : complex) (a : carray) : carray := map (map (cmul c)) a.

(** [np.array_equal(a, b)] *)
Fixpoint row_equal (u v : list complex) : bool :=
  match u, v with
  | [], [] => true
  | x :: u', y :: v' => ceqb x y && row_equal u' v'
  | _, _ => false
  end.

Fixpoint array_equal (a b : carray) : bool :=
  match a, b with
  | [], [] => true
  | u :: a', v :: b' => row_equal u v && array_equal a' b'
  | _, _ => false
  end.

Definition identity2 : carray :=
  [[complex_of_int 1; complex_of_int 0]; [complex_of_int 0; complex_of_int 1]].

(** [np.arange(n)] of a Python [int]: the integers [0 .. n-1], none when
    [n <= 0]. *)
Definition arange (n : Z) : list Z := seqZ 0 n.

(** [np.diag(v)] of a one-dimensional integer array: the square array with
    [v] on its diagonal and zero elsewhere. *)
Definition diag (v : list Z) : list (list Z) :=
  imap (fun i x => <[i := x]> (replicate (length v) 0)) v.

(** Complex conjugate, conjugate transpose and trace, for stating the
    algebra. *)
Definition cconj (c : complex) : complex := (c.1, SFopp c.2).

Definition conj_transpose (a : carray) : carray :=
  map (map cconj) (transpose (complex_of_int 0) a).

Definition trace (a : carray) : complex :=
  foldr cadd (complex_of_int 0)
    (imap (fun i row => default (complex_of_int 0) (row !! i)) a).

End np.

(** *** The module as a source file

    A compound statement header must end with a colon.  The header of
    [creation_annihilation_operator] on line 8 of the file is the text
    below; compiling the file fails there, and with it every import of the
    module. *)
Definition creation_annihilation_operator_header : string :=
  "def creation_annihilation_operator(dimension: int) -> Tuple[np.ndarray, np.ndarray]".

(** The colon is character 58. *)
Definition ends_with_colon (line : string) : bool :=
  match rev (list_ascii_of_string line) with
  | c :: _ => Ascii.eqb c (Ascii.ascii_of_nat 58)
  | [] => false
  end.

Definition compile_header (lineno : nat) (line : string) : result unit :=
  if ends_with_colon line then Ok tt else Raise (SyntaxError lineno).

(** [import hops.homps.operators] *)
Definition import_operators : result unit :=
  compile_header 8 creation_annihilation_operator_header.

(** A call of a function of the module from outside: the module is
    imported, then the function runs.  The definitions of the functions
    below are their bodies as written, read with the header repaired. *)
Definition from_operators {A} (call : result A) : result A :=
  _ ← import_operators; call.

(** [range(n)] *)
Definition range (n : Z) : list Z := seqZ 0 n.

(** A [for] loop whose body may raise. *)
Fixpoint for_each {S} (body : S -> Z -> result S) (l : list Z) (s : S) : result S :=
  match l with
  | [] => Ok s
  | i :: l' => s' ← body s i; for_each body l' s'
  end.

Definition creation_annihilation_body (arrays : np.ndarray * np.ndarray) (i : Z)
  : result (np.ndarray * np.ndarray) :=
  let '(creation, annihilation) := arrays in
  creation ← np.setitem creation i (i + 1) (np.sqrt (i + 1));
  annihilation ← np.setitem annihilation (i + 1) i (np.sqrt (i + 1));
  Ok (creation, annihilation).

(** In the source the [def] header of this function (line 8) lacks its final
    colon; the function is read with it. *)
Definition creation_annihilation_operator (dimension : Z)
  : result (np.ndarray * np.ndarray) :=
  creation ← np.zeros (dimension, dimension);
  annihilation ← np.zeros (dimension, dimension);
  for_each creation_annihilation_body (range (dimension - 1)) (creation, annihilation).

(** The values of the three arrays [pauli_operators] builds. *)
Definition sigma_x_rows : np.carray :=
  [[np.complex_of_int 0; np.complex_of_int 1]; [np.complex_of_int 1; np.complex_of_int 0]].
Definition sigma_y_rows : np.carray :=
  [[np.complex_of_int 0; np.cneg np.imag_unit]; [np.imag_unit; np.complex_of_int 0]].
Definition sigma_z_rows : np.carray :=
  [[np.complex_of_int 1; np.complex_of_int 0]; [np.complex_of_int 0; np.complex_of_int (-1)]].

Definition pauli_operators (σ : gmap positive np.carray)
  : (positive * positive * positive) * gmap positive np.carray :=
  let '(sigma_x, σ) := np.array sigma_x_rows σ in
  let '(sigma_y, σ) := np.array sigma_y_rows σ in
  let '(sigma_z, σ) := np.array sigma_z_rows σ in
  ((sigma_x, sigma_y, sigma_z), σ).

Definition number_operator (dimension : Z) : list (list Z) :=
  np.diag (np.arange dimension).

(** ** Closed forms used in the proofs *)

(** The [d] by [d] array whose entry in row [r] and column [k] is [f r k]. *)
Definition tabulate {A} (d : nat) (f : nat -> nat -> A) : list (list A) :=
  (fun r => (fun k => f r k) <$> seq 0 d) <$> seq 0 d.

(** The two arrays after [n] rounds of the loop. *)
Definition creation_entry (n r k : nat) : spec_float :=
  if bool_decide (k = S r /\ (r < n)%nat) then np.sqrt (Z.of_nat r + 1) else fzero.

Definition annihilation_entry (n r k : nat) : spec_float := creation_entry n k r.

(** ** Values used in the examples *)

(** The float [0.001]. *)
Definition one_thousandth : spec_float :=
  SFdiv prec emax (float_of_int 1) (float_of_int 1000).

(** ** Tactics *)

(** Looking up position [i] of [f <$> seq 0 d]: either [i] is out of range
    and both sides of the goal are [None], or the element is [i] itself. *)
Ltac seq_index d i H :=
  let x := fresh i in
  rewrite ?list_lookup_fmap;
  destruct (seq 0 d !! i) as [x|] eqn:H; [| reflexivity];
  apply lookup_seq in H as [-> H]; simpl.

(** Membership of a parameter in one of the three signatures. *)
Ltac sig_member :=
  unfold TDVP1SiteParameters.sig, TDVP2SiteParameters.sig, TEBDParameters.sig;
  rewrite ?elem_of_cons; auto 6.

(** * Properties *)

(** ** The positivity test *)

Lemma positivity_test_raises (v : value) (name : string) :
  le_zero v = Ok true ->
  positivity_test v name = Raise (ValueError (name +:+ " must be positive!")).
Proof. intros H. unfold positivity_test. rewrite H. reflexivity. Qed.

Lemma positivity_test_passes (v : value) (name : string) :
  le_zero v = Ok false -> positivity_test v name = Ok tt.
Proof. intros H. unfold positivity_test. rewrite H. reflexivity. Qed.

Lemma positivity_test_ok_inv (v : value) (name : string) :
  positivity_test v name = Ok tt -> le_zero v = Ok false.
Proof.
  unfold positivity_test. destruct (le_zero v) as [[|]|e]; simpl; congruence.
Qed.

(** A value that conforms to a hint can be compared with zero. *)
Lemma conforms_le_zero (h : hint) (v : value) :
  conforms h v = true -> exists b, le_zero v = Ok b.
Proof. destruct h, v; simpl; try discriminate; eauto. Qed.

(** What passing the test means: the value is positive, or it is NaN. *)
Lemma le_zero_false (v : value) :
  le_zero v = Ok false -> gt_zero v = true \/ v = PyFloat fnan.
Proof.
  destruct v as [|b|z|f|s]; simpl; try discriminate.
  - destruct b; simpl; intros; [left; reflexivity | discriminate].
  - intros H. left. apply Z.ltb_lt. assert ((z <=? 0) = false) by congruence. lia.
  - destruct f as [s|s| |s m e]; try destruct s; simpl; intros H;
      try discriminate; auto.
Qed.


(** The constructors test the fields in the order of the signature and
    report the first one that is not positive. *)
Lemma TDVP1SiteParameters_init_order (a b : value) (la lb : bool) :
  le_zero a = Ok la -> le_zero b = Ok lb ->
  TDVP1SiteParameters.__init__ a b =
    if la then Raise (ValueError "number of Lanczos iterations must be positive!")
    else if lb then Raise (ValueError "maximum bond dimension must be positive!")
    else Ok {| TDVP1SiteParameters.numiter_lanczos := a;
               TDVP1SiteParameters.max_bond_dimension := b |}.
Proof.
  intros Ha Hb. unfold TDVP1SiteParameters.__init__, positivity_test.
  rewrite Ha, Hb. destruct la, lb; reflexivity.
Qed.

Lemma TDVP2SiteParameters_init_order (a b c : value) (la lb lc : bool) :
  le_zero a = Ok la -> le_zero b = Ok lb -> le_zero c = Ok lc ->
  TDVP2SiteParameters.__init__ a b c =
    if la then Raise (ValueError "number of Lanczos iterations must be positive!")
    else if lb then Raise (ValueError "maximum bond dimension must be positive!")
    else if lc then Raise (ValueError "relative SVD tolerance must be positive!")
    else Ok {| TDVP2SiteParameters.numiter_lanczos := a;
               TDVP2SiteParameters.max_bond_dimension := b;
               TDVP2SiteParameters.relative_svd_tolerance := c |}.
Proof.
  intros Ha Hb Hc. unfold TDVP2SiteParameters.__init__, positivity_test.
  rewrite Ha, Hb, Hc. destruct la, lb, lc; reflexivity.
Qed.

Lemma TEBDParameters_init_order (a b : value) (la lb : bool) :
  le_zero a = Ok la -> le_zero b = Ok lb ->
  TEBDParameters.__init__ a b =
    if la then Raise (ValueError "maximum bond dimension must be positive!")
    else if lb then Raise (ValueError "SVD relative tolerance must be positive!")
    else Ok {| TEBDParameters.max_bond_dimension := a;
               TEBDParameters.svd_relative_tolerance := b |}.
Proof.
  intros Ha Hb. unfold TEBDParameters.__init__, positivity_test.
  rewrite Ha, Hb. destruct la, lb; reflexivity.
Qed.

(** Every field of a record a constructor returned passed the test. *)
Lemma TDVP1SiteParameters_fields_pass (a b : value) (p : TDVP1SiteParameters.t) :
  TDVP1SiteParameters.__init__ a b = Ok p ->
  Forall (fun v => le_zero v = Ok false) (TDVP1SiteParameters.fields p).
Proof.
  unfold TDVP1SiteParameters.__init__, positivity_test.
  destruct (le_zero a) as [[|]|] eqn:Ha; simpl; try discriminate.
  destruct (le_zero b) as [[|]|] eqn:Hb; simpl; try discriminate.
  intros [= <-]. unfold TDVP1SiteParameters.fields; simpl.
  repeat constructor; assumption.
Qed.

Lemma TDVP2SiteParameters_fields_pass (a b c : value) (p : TDVP2SiteParameters.t) :
  TDVP2SiteParameters.__init__ a b c = Ok p ->
  Forall (fun v => le_zero v = Ok false) (TDVP2SiteParameters.fields p).
Proof.
  unfold TDVP2SiteParameters.__init__, positivity_test.
  destruct (le_zero a) as [[|]|] eqn:Ha; simpl; try discriminate.
  destruct (le_zero b) as [[|]|] eqn:Hb; simpl; try discriminate.
  destruct (le_zero c) as [[|]|] eqn:Hc; simpl; try discriminate.
  intros [= <-]. unfold TDVP2SiteParameters.fields; simpl.
  repeat constructor; assumption.
Qed.

Lemma TEBDParameters_fields_pass (a b : value) (p : TEBDParameters.t) :
  TEBDParameters.__init__ a b = Ok p ->
  Forall (fun v => le_zero v = Ok false) (TEBDParameters.fields p).
Proof.
  unfold TEBDParameters.__init__, positivity_test.
  destruct (le_zero a) as [[|]|] eqn:Ha; simpl; try discriminate.
  destruct (le_zero b) as [[|]|] eqn:Hb; simpl; try discriminate.
  intros [= <-]. unfold TEBDParameters.fields; simpl.
  repeat constructor; assumption.
Qed.

(** A keyword call that returns a record ran the constructor body. *)
Lemma TDVP1SiteParameters_call_inv (kwargs : gmap string value) (p : TDVP1SiteParameters.t) :
  TDVP1SiteParameters.call kwargs = Ok p ->
  exists a b, TDVP1SiteParameters.__init__ a b = Ok p.
Proof.
  unfold TDVP1SiteParameters.call.
  destruct (beartype_check _ _) as [[]|e1]; simpl; [| discriminate].
  destruct (reject_unexpected _ _) as [[]|e2]; simpl; [| discriminate].
  destruct (kwargs !! "numiter_lanczos") as [a|]; [| discriminate].
  destruct (kwargs !! "max_bond_dimension") as [b|]; [| discriminate].
  eauto.
Qed.

Lemma TDVP2SiteParameters_call_inv (kwargs : gmap string value) (p : TDVP2SiteParameters.t) :
  TDVP2SiteParameters.call kwargs = Ok p ->
  exists a b c, TDVP2SiteParameters.__init__ a b c = Ok p.
Proof.
  unfold TDVP2SiteParameters.call.
  destruct (beartype_check _ _) as [[]|e1]; simpl; [| discriminate].
  destruct (reject_unexpected _ _) as [[]|e2]; simpl; [| discriminate].
  destruct (kwargs !! "numiter_lanczos") as [a|]; [| discriminate].
  destruct (kwargs !! "max_bond_dimension") as [b|]; [| discriminate].
  destruct (kwargs !! "relative_svd_tolerance") as [c|]; [| discriminate].
  eauto.
Qed.

Lemma TEBDParameters_call_inv (kwargs : gmap string value) (p : TEBDParameters.t) :
  TEBDParameters.call kwargs = Ok p ->
  exists a b, TEBDParameters.__init__ a b = Ok p.
Proof.
  unfold TEBDParameters.call.
  destruct (beartype_check _ _) as [[]|e1]; simpl; [| discriminate].
  destruct (reject_unexpected _ _) as [[]|e2]; simpl; [| discriminate].
  destruct (kwargs !! "max_bond_dimension") as [a|]; [| discriminate].
  destruct (kwargs !! "svd_relative_tolerance") as [b|]; [| discriminate].
  eauto.
Qed.

(** With every field supplied and of the declared type, the keyword call
    is the constructor body on those fields. *)
Lemma TDVP1SiteParameters_call_typed (a b : value) :
  conforms hint_int a = true -> conforms hint_int b = true ->
  TDVP1SiteParameters.call {[ "numiter_lanczos" := a; "max_bond_dimension" := b ]}
  = TDVP1SiteParameters.__init__ a b.
Proof.
  intros Ha Hb. destruct a, b; try discriminate Ha; try discriminate Hb;
    vm_compute; reflexivity.
Qed.

Lemma TDVP2SiteParameters_call_typed (a b c : value) :
  conforms hint_int a = true -> conforms hint_int b = true ->
  conforms hint_float c = true ->
  TDVP2SiteParameters.call
    {[ "numiter_lanczos" := a; "max_bond_dimension" := b; "relative_svd_tolerance" := c ]}
  = TDVP2SiteParameters.__init__ a b c.
Proof.
  intros Ha Hb Hc.
  destruct a, b, c; try discriminate Ha; try discriminate Hb; try discriminate Hc;
    vm_compute; reflexivity.
Qed.

Lemma TEBDParameters_call_typed (a b : value) :
  conforms hint_int a = true -> conforms hint_float b = true ->
  TEBDParameters.call {[ "max_bond_dimension" := a; "svd_relative_tolerance" := b ]}
  = TEBDParameters.__init__ a b.
Proof.
  intros Ha Hb. destruct a, b; try discriminate Ha; try discriminate Hb;
    vm_compute; reflexivity.
Qed.

(** What does hold of every record [generate_parameters] returns: each
    field is strictly positive or is NaN. *)
Lemma generated_fields_positive_or_nan (mode : mode_argument) (kwargs : gmap string value)
    (p : parameters) :
  generate_parameters mode kwargs = Ok p ->
  Forall (fun v => gt_zero v = true \/ v = PyFloat fnan) (record_fields p).
Proof.
  intros H.
  assert (Hpass : Forall (fun v => le_zero v = Ok false) (record_fields p)).
  { destruct mode as [[| | |]|s]; unfold generate_parameters in H; simpl in H;
      try discriminate H.
    - destruct (TDVP1SiteParameters.call kwargs) as [q|] eqn:Hq; [| discriminate H].
      injection H as <-.
      destruct (TDVP1SiteParameters_call_inv kwargs q Hq) as (a & b & Hinit).
      exact (TDVP1SiteParameters_fields_pass a b q Hinit).
    - destruct (TDVP2SiteParameters.call kwargs) as [q|] eqn:Hq; [| discriminate H].
      injection H as <-.
      destruct (TDVP2SiteParameters_call_inv kwargs q Hq) as (a & b & c & Hinit).
      exact (TDVP2SiteParameters_fields_pass a b c q Hinit).
    - destruct (TEBDParameters.call kwargs) as [q|] eqn:Hq; [| discriminate H].
      injection H as <-.
      destruct (TEBDParameters_call_inv kwargs q Hq) as (a & b & Hinit).
      exact (TEBDParameters_fields_pass a b q Hinit). }
  eapply Forall_impl; [exact Hpass |]. intros v. apply le_zero_false.
Qed.

(** ** [generate_parameters] and the record constructors *)

Lemma mode_eq_member (m m' : MPSIntegrationMode) :
  mode_eq (Member m) m' = bool_decide (m = m').
Proof. reflexivity. Qed.

Lemma mode_eq_other (s : string) (m : MPSIntegrationMode) : mode_eq (Other s) m = false.
Proof. reflexivity. Qed.

Lemma mode_argument_cases (mode : mode_argument) :
  (forall m, mode <> Member m) -> exists s, mode = Other s.
Proof. destruct mode as [m|s]; intros H; [destruct (H m); reflexivity | eauto]. Qed.

(** C1, at the input where the code parts from it: a float field that is
    NaN is neither [<= 0] nor positive.  [positivity_test] lets it pass, so
    [TEBDParameters] (and [TDVP2SiteParameters] alike) returns a record
    whose tolerance is not strictly positive, although the docstring of
    [positivity_test] promises an error for every value that is not
    positive. *)
Theorem positivity_test_admits_nan :
  positivity_test (PyFloat fnan) "SVD relative tolerance" = Ok tt
  /\ gt_zero (PyFloat fnan) = false
  /\ generate_parameters (Member TEBD)
       {[ "max_bond_dimension" := PyInt 20; "svd_relative_tolerance" := PyFloat fnan ]}
     = Ok (TEBDp {| TEBDParameters.max_bond_dimension := PyInt 20;
                    TEBDParameters.svd_relative_tolerance := PyFloat fnan |})
  /\ generate_parameters (Member TDVP2SITE)
       {[ "numiter_lanczos" := PyInt 10; "max_bond_dimension" := PyInt 20;
          "relative_svd_tolerance" := PyFloat fnan ]}
     = Ok (TDVP2 {| TDVP2SiteParameters.numiter_lanczos := PyInt 10;
                    TDVP2SiteParameters.max_bond_dimension := PyInt 20;
                    TDVP2SiteParameters.relative_svd_tolerance := PyFloat fnan |}).
Proof. split; [| split; [| split]]; vm_compute; reflexivity. Qed.

(** C2: with the mode RUNGEKUTTA the call raises [NotImplementedError]
    whatever keywords are supplied; no record is built, and the exception
    differs from the [ValueError] an unknown mode gets. *)
Theorem generate_parameters_rungekutta (kwargs : gmap string value) :
  generate_parameters (Member RUNGEKUTTA) kwargs
    = Raise (NotImplementedError "Runge-Kutta integration is not yet implemented.")
  /\ is_ok (generate_parameters (Member RUNGEKUTTA) kwargs) = false
  /\ (forall msg, generate_parameters (Member RUNGEKUTTA) kwargs <> Raise (ValueError msg))
  /\ (forall s kwargs',
        generate_parameters (Other s) kwargs' <> generate_parameters (Member RUNGEKUTTA) kwargs).
Proof.
  assert (H : generate_parameters (Member RUNGEKUTTA) kwargs
    = Raise (NotImplementedError "Runge-Kutta integration is not yet implemented."))
    by reflexivity.
  split; [| split; [| split]].
  - exact H.
  - rewrite H. reflexivity.
  - intros msg. rewrite H. discriminate.
  - intros s kwargs'. rewrite H. unfold generate_parameters.
    rewrite !mode_eq_other. discriminate.
Qed.

(** An object with the default equality that is no member of the
    enumeration raises [ValueError]. *)
Lemma generate_parameters_invalid_mode (mode : mode_argument) (kwargs : gmap string value) :
  (forall m, mode <> Member m) ->
  generate_parameters mode kwargs
    = Raise (ValueError ("Invalid mode " +:+ mode_str mode +:+ ".")).
Proof.
  intros H. destruct (mode_argument_cases mode H) as [s ->]. reflexivity.
Qed.

(** The value ["RK"] of a member is not the member. *)
Lemma generate_parameters_invalid_mode_witness :
  (forall m, Other (MPSIntegrationMode_value RUNGEKUTTA) <> Member m)
  /\ generate_parameters (Other (MPSIntegrationMode_value RUNGEKUTTA)) ∅
     = Raise (ValueError "Invalid mode RK.").
Proof.
  split; [discriminate |].
  apply (generate_parameters_invalid_mode (Other (MPSIntegrationMode_value RUNGEKUTTA)) ∅).
  discriminate.
Defined.

(** On the objects of [mode_argument] the two functions agree. *)
Lemma generate_parameters_obj_of (mode : mode_argument) (kwargs : gmap string value) :
  generate_parameters_obj (object_of mode) kwargs = generate_parameters mode kwargs.
Proof. reflexivity. Qed.




Lemma beartype_check_cases (sig : signature) (kwargs : gmap string value) :
  beartype_check sig kwargs = Ok tt \/
  exists name, beartype_check sig kwargs = Raise (BeartypeCallHintParamViolation name).
Proof.
  induction sig as [|[name h] sig IH]; simpl; [left; reflexivity |].
  destruct (kwargs !! name) as [v|]; [| exact IH].
  destruct (conforms h v); [exact IH | right; eauto].
Qed.

Lemma TDVP2SiteParameters_call_ok (k m : Z) (t : spec_float) :
  0 < k -> 0 < m -> SFltb fzero t = true ->
  TDVP2SiteParameters.call
    {[ "numiter_lanczos" := PyInt k; "max_bond_dimension" := PyInt m;
       "relative_svd_tolerance" := PyFloat t ]}
  = Ok {| TDVP2SiteParameters.numiter_lanczos := PyInt k;
          TDVP2SiteParameters.max_bond_dimension := PyInt m;
          TDVP2SiteParameters.relative_svd_tolerance := PyFloat t |}.
Proof.
  intros Hk Hm Ht.
  rewrite TDVP2SiteParameters_call_typed by reflexivity.
  rewrite (TDVP2SiteParameters_init_order _ _ _ false false false); try reflexivity.
  - simpl. f_equal. lia.
  - simpl. f_equal. lia.
  - simpl. f_equal.
    destruct t as [s|s| |s mt e]; try destruct s; try discriminate Ht; reflexivity.
Qed.

Lemma TDVP2SiteParameters_call_mismatch (kwargs : gmap string value) :
  dom kwargs ≠ list_to_set TDVP2SiteParameters.__slots__ ->
  exists e, TDVP2SiteParameters.call kwargs = Raise e /\ is_argument_mismatch e = true.
Proof.
  intros Hdom. unfold TDVP2SiteParameters.call.
  destruct (beartype_check_cases TDVP2SiteParameters.sig kwargs) as [-> | [name ->]];
    simpl; [| eexists; split; reflexivity].
  unfold reject_unexpected.
  destruct (decide _) as [Hsub | Hsub]; simpl; [| eexists; split; reflexivity].
  destruct (kwargs !! "numiter_lanczos") as [a|] eqn:Ha;
    [| eexists; split; reflexivity].
  destruct (kwargs !! "max_bond_dimension") as [b|] eqn:Hb;
    [| eexists; split; reflexivity].
  destruct (kwargs !! "relative_svd_tolerance") as [c|] eqn:Hc;
    [| eexists; split; reflexivity].
  exfalso. apply Hdom.
  apply elem_of_dom_2 in Ha, Hb, Hc.
  apply (anti_symm (⊆)); [exact Hsub |].
  intros x Hx. unfold TDVP2SiteParameters.__slots__ in Hx. simpl in Hx.
  rewrite !elem_of_union, !elem_of_singleton in Hx.
  destruct Hx as [-> | [-> | [-> | Hx]]]; try assumption.
  exfalso. revert Hx. apply not_elem_of_empty.
Qed.

(** C4 as the spec words it fails: [TDVP2SiteParameters] has no parameter
    named [lanczos_iterations] or [svd_relative_tolerance], so a call with
    these keywords is refused by the binding of keywords. *)
Lemma TDVP2SITE_spec_names_rejected :
  generate_parameters (Member TDVP2SITE)
    {[ "lanczos_iterations" := PyInt 10; "max_bond_dimension" := PyInt 50;
       "svd_relative_tolerance" := PyFloat one_thousandth ]}
  = Raise (TypeError unexpected_keyword_argument).
Proof. vm_compute. reflexivity. Qed.

(** C4, amended: the two-site record has exactly the fields
    [numiter_lanczos], [max_bond_dimension] and [relative_svd_tolerance].
    Called with these three keywords, two positive integers and a positive
    float, [generate_parameters] returns the record holding them; called
    with any other set of keywords (one missing, one extra), none of them
    a keyword of the beartype wrapper itself, it raises an argument
    mismatch. *)
Theorem TDVP2SITE_fields :
  TDVP2SiteParameters.__slots__
    = ["numiter_lanczos"; "max_bond_dimension"; "relative_svd_tolerance"]
  /\ (forall (k m : Z) (t : spec_float),
        0 < k -> 0 < m -> SFltb fzero t = true ->
        generate_parameters (Member TDVP2SITE)
          {[ "numiter_lanczos" := PyInt k; "max_bond_dimension" := PyInt m;
             "relative_svd_tolerance" := PyFloat t ]}
        = Ok (TDVP2 {| TDVP2SiteParameters.numiter_lanczos := PyInt k;
                       TDVP2SiteParameters.max_bond_dimension := PyInt m;
                       TDVP2SiteParameters.relative_svd_tolerance := PyFloat t |}))
  /\ (forall kwargs : gmap string value,
        (forall k, k ∈ dom kwargs -> wrapper_keyword k = false) ->
        dom kwargs ≠ list_to_set TDVP2SiteParameters.__slots__ ->
        exists e, generate_parameters (Member TDVP2SITE) kwargs = Raise e
                  /\ is_argument_mismatch e = true).
Proof.
  split; [reflexivity | split].
  - intros k m t Hk Hm Ht.
    change (TDVP2 <$> TDVP2SiteParameters.call
              {[ "numiter_lanczos" := PyInt k; "max_bond_dimension" := PyInt m;
                 "relative_svd_tolerance" := PyFloat t ]} = Ok (TDVP2
              {| TDVP2SiteParameters.numiter_lanczos := PyInt k;
                 TDVP2SiteParameters.max_bond_dimension := PyInt m;
                 TDVP2SiteParameters.relative_svd_tolerance := PyFloat t |})).
    rewrite (TDVP2SiteParameters_call_ok k m t Hk Hm Ht). reflexivity.
  - intros kwargs _ Hdom.
    destruct (TDVP2SiteParameters_call_mismatch kwargs Hdom) as (e & He & Hm).
    exists e. split; [| exact Hm].
    change (TDVP2 <$> TDVP2SiteParameters.call kwargs = Raise e).
    rewrite He. reflexivity.
Qed.

Lemma TDVP2SITE_fields_witness :
  generate_parameters (Member TDVP2SITE)
    {[ "numiter_lanczos" := PyInt 10; "max_bond_dimension" := PyInt 50;
       "relative_svd_tolerance" := PyFloat one_thousandth ]}
  = Ok (TDVP2 {| TDVP2SiteParameters.numiter_lanczos := PyInt 10;
                 TDVP2SiteParameters.max_bond_dimension := PyInt 50;
                 TDVP2SiteParameters.relative_svd_tolerance := PyFloat one_thousandth |})
  /\ exists e,
       generate_parameters (Member TDVP2SITE)
         {[ "numiter_lanczos" := PyInt 10; "max_bond_dimension" := PyInt 50 ]} = Raise e
       /\ is_argument_mismatch e = true.
Proof.
  split.
  - apply (proj1 (proj2 TDVP2SITE_fields) 10 50 one_thousandth);
      [lia | lia | vm_compute; reflexivity].
  - apply (proj2 (proj2 TDVP2SITE_fields)).
    + intros k Hk. rewrite dom_insert_L, dom_singleton_L in Hk.
      apply elem_of_union in Hk as [Hk | Hk]; apply elem_of_singleton in Hk;
        subst k; reflexivity.
    + vm_compute. discriminate.
Defined.

(** ** Sealed records *)

Lemma setattr_undeclared (l : layout) (o : gmap string value) (name : string) (v : value) :
  has_dict l = false -> name ∉ slots l -> setattr l o name v = Raise (AttributeError name).
Proof.
  intros Hd Hn. unfold setattr. rewrite Hd, orb_false_r.
  rewrite bool_decide_eq_false_2 by exact Hn. reflexivity.
Qed.


(** Under any base layout without [__dict__], setting an attribute that no
    [__slots__] declaration names raises [AttributeError]. *)
Lemma records_are_sealed (ABCParameter : layout) (p : parameters)
    (name : string) (v : value) :
  has_dict ABCParameter = false ->
  name ∉ declared_slots p ++ slots ABCParameter ->
  setattr (subclass_layout ABCParameter (declared_slots p)) (attributes p) name v
    = Raise (AttributeError name).
Proof.
  intros Hd Hn. apply setattr_undeclared; [exact Hd | exact Hn].
Qed.

Lemma records_are_sealed_witness :
  setattr (subclass_layout {| slots := []; has_dict := false |}
             TDVP1SiteParameters.__slots__)
    (attributes (TDVP1 {| TDVP1SiteParameters.numiter_lanczos := PyInt 10;
                          TDVP1SiteParameters.max_bond_dimension := PyInt 50 |}))
    "svd_relative_tolerance" (PyFloat one_thousandth)
  = Raise (AttributeError "svd_relative_tolerance").
Proof.
  apply (records_are_sealed {| slots := []; has_dict := false |}
           (TDVP1 {| TDVP1SiteParameters.numiter_lanczos := PyInt 10;
                     TDVP1SiteParameters.max_bond_dimension := PyInt 50 |})).
  - reflexivity.
  - apply (bool_decide_unpack _). vm_compute. exact I.
Defined.




(** ** The composite [HIParamsWTensors] *)

Lemma default_flags_hash_action :
  _hash_action (flag_unsafe_hash default_flags) (flag_eq default_flags)
    (flag_frozen default_flags) HIParamsWTensors.has_explicit_hash = hash_set_none.
Proof. reflexivity. Qed.

Lemma HIParamsWTensors_hash_is_None {B : Type}
    (inherited : option (HIParamsWTensors.t B -> Z)) (generated : HIParamsWTensors.t B -> Z) :
  HIParamsWTensors.__hash__ inherited generated = Ok None.
Proof. reflexivity. Qed.

(** C10 as the spec words it fails: the decorator is used with its default
    flags, which give the class [__eq__] and set [__hash__] to [None]; an
    instance cannot be hashed, whatever hash it would have inherited. *)
Lemma HIParamsWTensors_unhashable :
  HIParamsWTensors.hash (Some (fun _ : HIParamsWTensors.t unit => 0))
    (fun _ : HIParamsWTensors.t unit => 1)
    {| HIParamsWTensors.base := tt;
       HIParamsWTensors.TensP :=
         TDVP1 {| TDVP1SiteParameters.numiter_lanczos := PyInt 10;
                  TDVP1SiteParameters.max_bond_dimension := PyInt 50 |} |}
  = Raise (TypeError (unhashable_type "HIParamsWTensors")).
Proof. reflexivity. Qed.

(** C10, amended: the class adds the one field [TensP] to the fields it
    inherits; the constructor rejects a value for [TensP] that is not an
    [ABCParameter] instance and otherwise stores it; two instances are
    equal exactly when the inherited fields and [TensP] are equal, each
    under its own equality; no instance is hashable. *)
Theorem HIParamsWTensors_equality_without_hash {B : Type}
    (base_eq : B -> B -> bool) (param_eq : parameters -> parameters -> bool)
    (inherited : option (HIParamsWTensors.t B -> Z))
    (generated : HIParamsWTensors.t B -> Z) :
  HIParamsWTensors.annotations = ["TensP"]
  /\ (forall (b : B) (v : value),
        HIParamsWTensors.__init__ b (HIParamsWTensors.Plain v)
        = Raise (BeartypeCallHintParamViolation "TensP"))
  /\ (forall (b : B) (p : parameters),
        HIParamsWTensors.__init__ b (HIParamsWTensors.Instance p)
        = Ok {| HIParamsWTensors.base := b; HIParamsWTensors.TensP := p |})
  /\ (forall x y : HIParamsWTensors.t B,
        HIParamsWTensors.__eq__ base_eq param_eq x y = true <->
        base_eq (HIParamsWTensors.base x) (HIParamsWTensors.base y) = true
        /\ param_eq (HIParamsWTensors.TensP x) (HIParamsWTensors.TensP y) = true)
  /\ (forall x : HIParamsWTensors.t B,
        HIParamsWTensors.hash inherited generated x
        = Raise (TypeError (unhashable_type "HIParamsWTensors"))).
Proof.
  split; [reflexivity |].
  split; [intros b v; reflexivity |].
  split; [intros b p; reflexivity |].
  split.
  - intros x y. unfold HIParamsWTensors.__eq__. apply andb_true_iff.
  - intros x. unfold HIParamsWTensors.hash.
    rewrite HIParamsWTensors_hash_is_None. reflexivity.
Qed.

(** ** Pauli operators *)

Lemma array_fresh (rows : np.carray) (σ : gmap positive np.carray) :
  (np.array rows σ).1 ∉ dom σ.
Proof. unfold np.array. simpl. apply is_fresh. Qed.

Lemma array_lookup_new (rows : np.carray) (σ : gmap positive np.carray) :
  (np.array rows σ).2 !! (np.array rows σ).1 = Some rows.
Proof. unfold np.array. simpl. apply lookup_insert_eq. Qed.

Lemma array_lookup_old (rows : np.carray) (σ : gmap positive np.carray) (l : positive) :
  l ∈ dom σ -> (np.array rows σ).2 !! l = σ !! l.
Proof.
  intros Hl. unfold np.array. simpl. apply lookup_insert_ne.
  intros Heq. subst l. exact (is_fresh (dom σ) Hl).
Qed.

Lemma array_dom (rows : np.carray) (σ : gmap positive np.carray) (l : positive) :
  l ∈ dom σ -> l ∈ dom (np.array rows σ).2.
Proof.
  intros Hl. unfold np.array. simpl. rewrite dom_insert_L.
  apply elem_of_union. right. exact Hl.
Qed.

Lemma array_dom_new (rows : np.carray) (σ : gmap positive np.carray) :
  (np.array rows σ).1 ∈ dom (np.array rows σ).2.
Proof.
  unfold np.array. simpl. rewrite dom_insert_L.
  apply elem_of_union. left. apply elem_of_singleton. reflexivity.
Qed.

Lemma pauli_algebra :
  np.array_equal (np.matmul sigma_x_rows sigma_x_rows) np.identity2 = true
  /\ np.array_equal (np.matmul sigma_y_rows sigma_y_rows) np.identity2 = true
  /\ np.array_equal (np.matmul sigma_z_rows sigma_z_rows) np.identity2 = true
  /\ np.array_equal (np.matmul sigma_x_rows sigma_y_rows)
       (np.scale np.imag_unit sigma_z_rows) = true.
Proof. split; [| split; [| split]]; vm_compute; reflexivity. Qed.

(** The body of [pauli_operators]: from any store, that is after any earlier calls and whatever was
    done to the arrays they returned, [pauli_operators] returns three newly
    allocated 2x2 complex arrays holding the same three matrices, leaves
    every existing array as it was, and these matrices satisfy
    [σx² = σy² = σz² = 1] and [σx σy = i σz]. *)
Theorem pauli_operators_spec (σ : gmap positive np.carray) :
  exists (sigma_x sigma_y sigma_z : positive) (σ' : gmap positive np.carray),
    pauli_operators σ = ((sigma_x, sigma_y, sigma_z), σ')
    /\ σ' !! sigma_x = Some sigma_x_rows
    /\ σ' !! sigma_y = Some sigma_y_rows
    /\ σ' !! sigma_z = Some sigma_z_rows
    /\ (sigma_x ∉ dom σ) /\ (sigma_y ∉ dom σ) /\ (sigma_z ∉ dom σ)
    /\ sigma_x <> sigma_y /\ sigma_y <> sigma_z /\ sigma_x <> sigma_z
    /\ (forall l, l ∈ dom σ -> σ' !! l = σ !! l)
    /\ np.shape sigma_x_rows = (2, 2)%nat
    /\ np.shape sigma_y_rows = (2, 2)%nat
    /\ np.shape sigma_z_rows = (2, 2)%nat
    /\ np.array_equal (np.matmul sigma_x_rows sigma_x_rows) np.identity2 = true
    /\ np.array_equal (np.matmul sigma_y_rows sigma_y_rows) np.identity2 = true
    /\ np.array_equal (np.matmul sigma_z_rows sigma_z_rows) np.identity2 = true
    /\ np.array_equal (np.matmul sigma_x_rows sigma_y_rows)
         (np.scale np.imag_unit sigma_z_rows) = true.
Proof.
  set (a1 := np.array sigma_x_rows σ).
  set (a2 := np.array sigma_y_rows a1.2).
  set (a3 := np.array sigma_z_rows a2.2).
  exists a1.1, a2.1, a3.1, a3.2.
  assert (Hx : a1.1 ∉ dom σ) by apply array_fresh.
  assert (Hy : a2.1 ∉ dom a1.2) by apply array_fresh.
  assert (Hz : a3.1 ∉ dom a2.2) by apply array_fresh.
  assert (Hx1 : a1.1 ∈ dom a1.2) by apply array_dom_new.
  assert (Hy2 : a2.1 ∈ dom a2.2) by apply array_dom_new.
  assert (Hx2 : a1.1 ∈ dom a2.2) by (apply array_dom; exact Hx1).
  split; [reflexivity |].
  split.
  { unfold a3. rewrite array_lookup_old by exact Hx2.
    unfold a2. rewrite array_lookup_old by exact Hx1.
    apply array_lookup_new. }
  split.
  { unfold a3. rewrite array_lookup_old by exact Hy2. apply array_lookup_new. }
  split; [apply array_lookup_new |].
  split; [exact Hx |].
  split; [intros H; apply Hy; apply array_dom; exact H |].
  split; [intros H; apply Hz; do 2 apply array_dom; exact H |].
  split; [intros E; apply Hy; rewrite <- E; exact Hx1 |].
  split; [intros E; apply Hz; rewrite <- E; exact Hy2 |].
  split; [intros E; apply Hz; rewrite <- E; exact Hx2 |].
  split.
  { intros l Hl. unfold a3, a2, a1.
    rewrite !array_lookup_old; [reflexivity | exact Hl | | ];
      repeat apply array_dom; exact Hl. }
  split; [reflexivity |]. split; [reflexivity |]. split; [reflexivity |].
  exact pauli_algebra.
Qed.

(** ** Creation and annihilation operators *)

(** *** Arrays in closed form *)

Section Tabulate.
Context {A : Type}.
Implicit Types (d r k : nat) (f g : nat -> nat -> A).

Lemma tabulate_length d f : length (tabulate d f) = d.
Proof. unfold tabulate. rewrite length_fmap. apply length_seq. Qed.

Lemma tabulate_row d f r :
  (r < d)%nat -> tabulate d f !! r = Some ((fun k => f r k) <$> seq 0 d).
Proof.
  intros H. unfold tabulate. rewrite list_lookup_fmap, lookup_seq_lt by exact H.
  reflexivity.
Qed.

Lemma tabulate_ncols d f : np.ncols (tabulate d f) = d.
Proof.
  destruct d as [|d]; [reflexivity |].
  unfold tabulate. simpl. rewrite length_fmap, length_seq. reflexivity.
Qed.

Lemma tabulate_entry d f r k :
  (r < d)%nat -> (k < d)%nat -> np.entry (tabulate d f) r k = Some (f r k).
Proof.
  intros Hr Hk. unfold np.entry. rewrite tabulate_row by exact Hr. simpl.
  rewrite list_lookup_fmap, lookup_seq_lt by exact Hk. reflexivity.
Qed.

Lemma tabulate_ext d f g :
  (forall r k, (r < d)%nat -> (k < d)%nat -> f r k = g r k) -> tabulate d f = tabulate d g.
Proof.
  intros H. unfold tabulate. apply list_eq. intros r. seq_index d r Hr. f_equal.
  apply list_eq. intros k. seq_index d k Hk. f_equal. apply H; assumption.
Qed.

Lemma replicate_fmap_seq (x : A) (n j : nat) : replicate n x = (fun _ => x) <$> seq j n.
Proof.
  revert j. induction n as [|n IH]; intros j; simpl; [reflexivity |].
  f_equal. apply IH.
Qed.

Lemma transpose_tabulate (x : A) d f :
  np.transpose x (tabulate d f) = tabulate d (fun r k => f k r).
Proof.
  unfold np.transpose. rewrite tabulate_ncols. unfold tabulate at 2.
  apply list_eq. intros k. seq_index d k Hk. f_equal.
  unfold tabulate. rewrite <- list_fmap_compose.
  apply list_eq. intros r. seq_index d r Hr.
  rewrite list_lookup_fmap, lookup_seq_lt by exact Hk. reflexivity.
Qed.

End Tabulate.

Lemma zeros_tabulate (d : Z) :
  0 <= d -> np.zeros (d, d) = Ok (tabulate (Z.to_nat d) (fun _ _ => fzero)).
Proof.
  intros H. unfold np.zeros.
  replace (d <? 0) with false by (symmetry; apply Z.ltb_ge; exact H). simpl.
  f_equal. unfold tabulate.
  rewrite 2!(replicate_fmap_seq _ _ 0%nat). reflexivity.
Qed.

Lemma axis_index_in_range (axis n i : nat) :
  (i < n)%nat -> np.axis_index axis n (Z.of_nat i) = Ok i.
Proof.
  intros H. unfold np.axis_index.
  replace (0 <=? Z.of_nat i) with true by (symmetry; apply Z.leb_le; lia).
  replace (Z.of_nat i <? Z.of_nat n) with true by (symmetry; apply Z.ltb_lt; lia).
  simpl. rewrite Nat2Z.id. reflexivity.
Qed.

(** An assignment in range changes exactly one entry. *)
Lemma setitem_tabulate (d : nat) (f : nat -> nat -> spec_float) (i j : nat) (v : spec_float) :
  (i < d)%nat -> (j < d)%nat ->
  np.setitem (tabulate d f) (Z.of_nat i) (Z.of_nat j) v
  = Ok (tabulate d (fun r k => if bool_decide (r = i /\ k = j) then v else f r k)).
Proof.
  intros Hi Hj. unfold np.setitem.
  rewrite tabulate_length, tabulate_ncols.
  rewrite (axis_index_in_range _ _ _ Hi). simpl.
  rewrite (axis_index_in_range _ _ _ Hj). simpl.
  f_equal. apply list_eq. intros r.
  destruct (decide (r = i)) as [-> | Hne].
  - rewrite list_lookup_alter_eq, !tabulate_row by exact Hi. simpl. f_equal.
    apply list_eq. intros k.
    destruct (decide (k = j)) as [-> | Hk].
    + rewrite list_lookup_insert_eq by (rewrite length_fmap, length_seq; exact Hj).
      rewrite list_lookup_fmap, lookup_seq_lt by exact Hj. simpl.
      rewrite bool_decide_eq_true_2 by (split; reflexivity). reflexivity.
    + rewrite list_lookup_insert_ne by (intros E; apply Hk; symmetry; exact E).
      seq_index d k Hkk.
      rewrite bool_decide_eq_false_2 by (intros [_ E]; apply Hk; exact E). reflexivity.
  - rewrite list_lookup_alter_ne by (intros E; apply Hne; symmetry; exact E).
    unfold tabulate. seq_index d r Hr. f_equal.
    apply list_eq. intros k. seq_index d k Hk.
    rewrite bool_decide_eq_false_2 by (intros [E _]; apply Hne; exact E). reflexivity.
Qed.

(** *** The loop *)

Lemma for_each_snoc {S : Type} (body : S -> Z -> result S) (l : list Z) (i : Z) (s : S) :
  for_each body (l ++ [i]) s =
    match for_each body l s with Ok s' => body s' i | Raise e => Raise e end.
Proof.
  revert s. induction l as [|j l IH]; intros s; simpl.
  - destruct (body s i); reflexivity.
  - destruct (body s j) as [s'|e]; simpl; [apply IH | reflexivity].
Qed.

Lemma range_succ (n : nat) : range (Z.of_nat (S n)) = range (Z.of_nat n) ++ [Z.of_nat n].
Proof.
  unfold range. replace (Z.of_nat (S n)) with (Z.of_nat n + 1) by lia.
  rewrite seqZ_app by lia. reflexivity.
Qed.

Lemma creation_entry_zero (d : nat) :
  tabulate d (fun _ _ => fzero) = tabulate d (creation_entry 0).
Proof.
  apply tabulate_ext. intros r k _ _. unfold creation_entry.
  rewrite bool_decide_eq_false_2 by lia. reflexivity.
Qed.

Lemma annihilation_entry_zero (d : nat) :
  tabulate d (fun _ _ => fzero) = tabulate d (annihilation_entry 0).
Proof.
  apply tabulate_ext. intros r k _ _. unfold annihilation_entry, creation_entry.
  rewrite bool_decide_eq_false_2 by lia. reflexivity.
Qed.

Lemma creation_entry_step (d n : nat) :
  (S n < d)%nat ->
  tabulate d (fun r k => if bool_decide (r = n /\ k = S n) then np.sqrt (Z.of_nat n + 1)
                         else creation_entry n r k)
  = tabulate d (creation_entry (S n)).
Proof.
  intros H. apply tabulate_ext. intros r k Hr Hk. unfold creation_entry.
  destruct (decide (r = n /\ k = S n)) as [[-> ->] | Hne].
  - rewrite !bool_decide_eq_true_2 by (split; [reflexivity | lia]). reflexivity.
  - rewrite (bool_decide_eq_false_2 _ Hne).
    destruct (decide (k = S r /\ (r < n)%nat)) as [Hin | Hout].
    + rewrite !bool_decide_eq_true_2; [reflexivity | split; lia | exact Hin].
    + rewrite !bool_decide_eq_false_2; [reflexivity | | exact Hout].
      intros [E Hlt]. destruct (decide (r = n)) as [-> | Hrn]; [tauto |].
      apply Hout. split; [exact E | lia].
Qed.

Lemma annihilation_entry_step (d n : nat) :
  (S n < d)%nat ->
  tabulate d (fun r k => if bool_decide (r = S n /\ k = n) then np.sqrt (Z.of_nat n + 1)
                         else annihilation_entry n r k)
  = tabulate d (annihilation_entry (S n)).
Proof.
  intros H. apply tabulate_ext. intros r k Hr Hk.
  unfold annihilation_entry, creation_entry.
  destruct (decide (r = S n /\ k = n)) as [[-> ->] | Hne].
  - rewrite !bool_decide_eq_true_2 by (split; [reflexivity | lia]). reflexivity.
  - rewrite (bool_decide_eq_false_2 _ Hne).
    destruct (decide (r = S k /\ (k < n)%nat)) as [Hin | Hout].
    + rewrite !bool_decide_eq_true_2; [reflexivity | split; lia | exact Hin].
    + rewrite !bool_decide_eq_false_2; [reflexivity | | exact Hout].
      intros [E Hlt]. destruct (decide (k = n)) as [-> | Hkn]; [tauto |].
      apply Hout. split; [exact E | lia].
Qed.

(** One round of the loop, on the closed forms. *)
Lemma body_tabulate (d n : nat) :
  (S n < d)%nat ->
  creation_annihilation_body
    (tabulate d (creation_entry n), tabulate d (annihilation_entry n)) (Z.of_nat n)
  = Ok (tabulate d (creation_entry (S n)), tabulate d (annihilation_entry (S n))).
Proof.
  intros H. unfold creation_annihilation_body.
  replace (Z.of_nat n + 1) with (Z.of_nat (S n)) by lia.
  rewrite setitem_tabulate by lia. simpl.
  rewrite setitem_tabulate by lia. simpl.
  replace (Z.of_nat (S n)) with (Z.of_nat n + 1) by lia.
  rewrite creation_entry_step, annihilation_entry_step by exact H. reflexivity.
Qed.

(** The invariant: after [n] rounds the arrays are the closed forms at [n]. *)
Lemma loop_tabulate (d n : nat) :
  (n < d)%nat ->
  for_each creation_annihilation_body (range (Z.of_nat n))
    (tabulate d (creation_entry 0), tabulate d (annihilation_entry 0))
  = Ok (tabulate d (creation_entry n), tabulate d (annihilation_entry n)).
Proof.
  induction n as [|n IH]; intros H; [reflexivity |].
  rewrite range_succ, for_each_snoc, IH by lia.
  apply body_tabulate. exact H.
Qed.

Lemma creation_annihilation_operator_tabulate (dimension : Z) :
  1 <= dimension ->
  creation_annihilation_operator dimension
  = Ok (tabulate (Z.to_nat dimension) (creation_entry (Z.to_nat dimension - 1)),
        tabulate (Z.to_nat dimension) (annihilation_entry (Z.to_nat dimension - 1))).
Proof.
  intros H. unfold creation_annihilation_operator.
  rewrite zeros_tabulate by lia. simpl.
  rewrite creation_entry_zero at 1. rewrite annihilation_entry_zero.
  replace (dimension - 1) with (Z.of_nat (Z.to_nat dimension - 1)) by lia.
  apply loop_tabulate. lia.
Qed.

(** The body, its header repaired: for a dimension of at least 1 it returns two square arrays
    of that dimension, each the transpose of the other.  The creation array
    holds [sqrt(r+1)] in row [r], column [r+1], the annihilation array holds
    [sqrt(k+1)] in row [k+1], column [k], and every other entry is zero; for
    dimension 1 both are the 1x1 zero array. *)
Theorem creation_annihilation_operator_spec (dimension : Z) :
  1 <= dimension ->
  exists creation annihilation : np.ndarray,
    creation_annihilation_operator dimension = Ok (creation, annihilation)
    /\ np.shape creation = (Z.to_nat dimension, Z.to_nat dimension)
    /\ np.shape annihilation = (Z.to_nat dimension, Z.to_nat dimension)
    /\ annihilation = np.transpose fzero creation
    /\ creation = np.transpose fzero annihilation
    /\ (forall r k : nat,
          (r < Z.to_nat dimension)%nat -> (k < Z.to_nat dimension)%nat ->
          np.entry creation r k
            = Some (if bool_decide (k = S r) then np.sqrt (Z.of_nat r + 1) else fzero)
          /\ np.entry annihilation r k
            = Some (if bool_decide (r = S k) then np.sqrt (Z.of_nat k + 1) else fzero))
    /\ (dimension = 1 -> creation = [[fzero]] /\ annihilation = [[fzero]]).
Proof.
  intros H. set (d := Z.to_nat dimension). set (n := (d - 1)%nat).
  exists (tabulate d (creation_entry n)), (tabulate d (annihilation_entry n)).
  split; [apply creation_annihilation_operator_tabulate; exact H |].
  split; [unfold np.shape; rewrite tabulate_length, tabulate_ncols; reflexivity |].
  split; [unfold np.shape; rewrite tabulate_length, tabulate_ncols; reflexivity |].
  split; [rewrite transpose_tabulate; reflexivity |].
  split; [rewrite transpose_tabulate; reflexivity |].
  split.
  - intros r k Hr Hk. rewrite !tabulate_entry by assumption.
    unfold annihilation_entry, creation_entry. split; f_equal.
    + destruct (decide (k = S r)) as [E | E].
      * rewrite !bool_decide_eq_true_2; [reflexivity | exact E | split; [exact E | lia]].
      * rewrite !bool_decide_eq_false_2; [reflexivity | exact E | intros [E' _]; exact (E E')].
    + destruct (decide (r = S k)) as [E | E].
      * rewrite !bool_decide_eq_true_2; [reflexivity | exact E | split; [exact E | lia]].
      * rewrite !bool_decide_eq_false_2; [reflexivity | exact E | intros [E' _]; exact (E E')].
  - intros E. unfold n, d. rewrite E. split; reflexivity.
Qed.

Lemma creation_annihilation_operator_spec_witness :
  exists creation annihilation : np.ndarray,
    creation_annihilation_operator 3 = Ok (creation, annihilation)
    /\ annihilation = np.transpose fzero creation
    /\ np.entry creation 1 2 = Some (np.sqrt 2)
    /\ np.entry annihilation 2 1 = Some (np.sqrt 2)
    /\ np.entry creation 2 1 = Some fzero.
Proof.
  destruct (creation_annihilation_operator_spec 3 ltac:(lia))
    as (c & a & Hrun & _ & _ & Ht & _ & Hentry & _).
  exists c, a. split; [exact Hrun |]. split; [exact Ht |].
  split; [exact (proj1 (Hentry 1%nat 2%nat ltac:(simpl; lia) ltac:(simpl; lia))) |].
  split; [exact (proj2 (Hentry 2%nat 1%nat ltac:(simpl; lia) ltac:(simpl; lia))) |].
  exact (proj1 (Hentry 2%nat 1%nat ltac:(simpl; lia) ltac:(simpl; lia))).
Defined.

(** Dimension 0 is not rejected: the call returns two empty arrays. *)
Lemma creation_annihilation_operator_zero :
  creation_annihilation_operator 0 = Ok ([], []).
Proof. reflexivity. Qed.

(** The body, its header repaired: a negative dimension raises [ValueError], which comes
    from [np.zeros]; dimension 0 raises nothing and returns two empty
    arrays. *)
Theorem creation_annihilation_operator_nonpositive (dimension : Z) :
  dimension <= 0 ->
  creation_annihilation_operator dimension =
    if dimension <? 0 then Raise (ValueError "negative dimensions are not allowed")
    else Ok ([], []).
Proof.
  intros H. destruct dimension as [|p|p]; [reflexivity | lia | reflexivity].
Qed.

Lemma creation_annihilation_operator_nonpositive_witness :
  creation_annihilation_operator (-3)
  = Raise (ValueError "negative dimensions are not allowed").
Proof. apply (creation_annihilation_operator_nonpositive (-3)). lia. Defined.

(** * Further properties *)

(** *** The number operator *)

Lemma arange_length (n : Z) : length (np.arange n) = Z.to_nat n.
Proof. unfold np.arange. apply length_seqZ. Qed.

Lemma arange_lookup (n : Z) (i : nat) :
  (i < Z.to_nat n)%nat -> np.arange n !! i = Some (Z.of_nat i).
Proof.
  intros H. unfold np.arange. rewrite lookup_seqZ_lt by lia. reflexivity.
Qed.

Lemma diag_tabulate (v : list Z) :
  np.diag v = tabulate (length v)
                (fun r k => if bool_decide (r = k) then default 0 (v !! r) else 0).
Proof.
  unfold np.diag, tabulate. apply list_eq. intros r.
  rewrite list_lookup_imap, list_lookup_fmap.
  destruct (v !! r) as [x|] eqn:Hx.
  - assert (Hr : (r < length v)%nat) by (eapply lookup_lt_Some; exact Hx).
    rewrite lookup_seq_lt by exact Hr. simpl. f_equal.
    apply list_eq. intros k. rewrite list_lookup_fmap.
    destruct (decide (r = k)) as [<- | Hne].
    + rewrite list_lookup_insert_eq by (rewrite length_replicate; exact Hr).
      rewrite lookup_seq_lt by exact Hr. simpl.
      rewrite bool_decide_eq_true_2 by reflexivity. rewrite Hx. reflexivity.
    + rewrite list_lookup_insert_ne by exact Hne.
      destruct (decide (k < length v)%nat) as [Hk | Hk].
      * rewrite lookup_replicate_2, lookup_seq_lt by exact Hk. simpl.
        rewrite bool_decide_eq_false_2 by exact Hne. reflexivity.
      * rewrite lookup_seq_ge by lia.
        apply lookup_replicate_None. lia.
  - apply lookup_ge_None in Hx. rewrite lookup_seq_ge by exact Hx. reflexivity.
Qed.

Lemma number_operator_tabulate (dimension : Z) :
  number_operator dimension
  = tabulate (Z.to_nat dimension) (fun r k => if bool_decide (r = k) then Z.of_nat r else 0).
Proof.
  unfold number_operator. rewrite diag_tabulate, arange_length.
  apply tabulate_ext. intros r k Hr Hk.
  rewrite arange_lookup by exact Hr. reflexivity.
Qed.

(** The body of [number_operator] gives, for every integer, the square array of
    dimension [max 0 dimension] with [r] at position [(r, r)] and zero at
    every other position. *)
Theorem number_operator_spec (dimension : Z) :
  np.shape (number_operator dimension) = (Z.to_nat dimension, Z.to_nat dimension)
  /\ forall r k : nat,
       (r < Z.to_nat dimension)%nat -> (k < Z.to_nat dimension)%nat ->
       np.entry (number_operator dimension) r k
       = Some (if bool_decide (r = k) then Z.of_nat r else 0).
Proof.
  rewrite number_operator_tabulate. split.
  - unfold np.shape. rewrite tabulate_length, tabulate_ncols. reflexivity.
  - intros r k Hr Hk. apply tabulate_entry; assumption.
Qed.

Lemma number_operator_spec_witness :
  np.shape (number_operator 5) = (5, 5)%nat
  /\ np.entry (number_operator 5) 3 3 = Some 3
  /\ np.entry (number_operator 5) 3 4 = Some 0.
Proof.
  destruct (number_operator_spec 5) as [Hs He].
  split; [exact Hs |].
  split; [exact (He 3%nat 3%nat ltac:(simpl; lia) ltac:(simpl; lia)) |].
  exact (He 3%nat 4%nat ltac:(simpl; lia) ltac:(simpl; lia)).
Defined.

(** The array the body of [number_operator] gives is its own transpose. *)
Theorem number_operator_symmetric (dimension : Z) :
  np.transpose 0 (number_operator dimension) = number_operator dimension.
Proof.
  rewrite number_operator_tabulate, transpose_tabulate.
  apply tabulate_ext. intros r k _ _.
  destruct (decide (r = k)) as [-> | Hne].
  - reflexivity.
  - rewrite !bool_decide_eq_false_2; [reflexivity | exact Hne |].
    intros E. apply Hne. symmetry. exact E.
Qed.

(** A dimension of zero or less is not rejected by the body of [number_operator]:
    [np.arange] is then empty and the result is the empty array, also where
    [creation_annihilation_operator] raises. *)
Theorem number_operator_nonpositive (dimension : Z) :
  dimension <= 0 -> number_operator dimension = [].
Proof.
  intros H. rewrite number_operator_tabulate.
  replace (Z.to_nat dimension) with 0%nat by lia. reflexivity.
Qed.

Lemma number_operator_nonpositive_witness : number_operator (-3) = [].
Proof. apply (number_operator_nonpositive (-3)). lia. Defined.

(** *** Keyword calls in general *)


Lemma beartype_check_ok (sig : signature) (kwargs : gmap string value) :
  beartype_check sig kwargs = Ok tt ->
  forall name h v, (name, h) ∈ sig -> kwargs !! name = Some v -> conforms h v = true.
Proof.
  induction sig as [|[n0 h0] sig IH]; simpl; intros Hok name h v Hin Hv.
  - apply elem_of_nil in Hin. destruct Hin.
  - apply elem_of_cons in Hin as [[= -> ->] | Hin].
    + rewrite Hv in Hok. destruct (conforms h0 v); [reflexivity | discriminate Hok].
    + destruct (kwargs !! n0) as [v0|].
      * destruct (conforms h0 v0); [| discriminate Hok]. exact (IH Hok name h v Hin Hv).
      * exact (IH Hok name h v Hin Hv).
Qed.


Lemma kwargs_two (kwargs : gmap string value) (n1 n2 : string) (a b : value) :
  dom kwargs ⊆ list_to_set [n1; n2] ->
  kwargs !! n1 = Some a -> kwargs !! n2 = Some b ->
  kwargs = {[ n1 := a; n2 := b ]}.
Proof.
  intros Hsub Ha Hb. apply map_eq. intros i.
  destruct (decide (i = n1)) as [-> | H1].
  { rewrite lookup_insert_eq. exact Ha. }
  rewrite lookup_insert_ne by (intros E; apply H1; symmetry; exact E).
  destruct (decide (i = n2)) as [-> | H2].
  { rewrite lookup_singleton_eq. exact Hb. }
  rewrite lookup_singleton_ne by (intros E; apply H2; symmetry; exact E).
  apply not_elem_of_dom. intros Hi. apply Hsub in Hi. simpl in Hi.
  rewrite !elem_of_union, !elem_of_singleton in Hi.
  destruct Hi as [Hi | [Hi | Hi]]; [exact (H1 Hi) | exact (H2 Hi) |].
  revert Hi. apply not_elem_of_empty.
Qed.

Lemma kwargs_three (kwargs : gmap string value) (n1 n2 n3 : string) (a b c : value) :
  dom kwargs ⊆ list_to_set [n1; n2; n3] ->
  kwargs !! n1 = Some a -> kwargs !! n2 = Some b -> kwargs !! n3 = Some c ->
  kwargs = {[ n1 := a; n2 := b; n3 := c ]}.
Proof.
  intros Hsub Ha Hb Hc. apply map_eq. intros i.
  destruct (decide (i = n1)) as [-> | H1].
  { rewrite lookup_insert_eq. exact Ha. }
  rewrite lookup_insert_ne by (intros E; apply H1; symmetry; exact E).
  destruct (decide (i = n2)) as [-> | H2].
  { rewrite lookup_insert_eq. exact Hb. }
  rewrite lookup_insert_ne by (intros E; apply H2; symmetry; exact E).
  destruct (decide (i = n3)) as [-> | H3].
  { rewrite lookup_singleton_eq. exact Hc. }
  rewrite lookup_singleton_ne by (intros E; apply H3; symmetry; exact E).
  apply not_elem_of_dom. intros Hi. apply Hsub in Hi. simpl in Hi.
  rewrite !elem_of_union, !elem_of_singleton in Hi.
  destruct Hi as [Hi | [Hi | [Hi | Hi]]];
    [exact (H1 Hi) | exact (H2 Hi) | exact (H3 Hi) |].
  revert Hi. apply not_elem_of_empty.
Qed.

(** A keyword call that returns: the keywords are exactly the parameters,
    each of its declared type, and the record is the body's. *)
Lemma TDVP1SiteParameters_call_ok_inv (kwargs : gmap string value) (p : TDVP1SiteParameters.t) :
  TDVP1SiteParameters.call kwargs = Ok p ->
  exists a b,
    kwargs = {[ "numiter_lanczos" := a; "max_bond_dimension" := b ]}
    /\ conforms hint_int a = true /\ conforms hint_int b = true
    /\ TDVP1SiteParameters.__init__ a b = Ok p.
Proof.
  unfold TDVP1SiteParameters.call.
  destruct (beartype_check _ _) as [[]|e1] eqn:Hbt; simpl; [| discriminate].
  unfold reject_unexpected.
  destruct (decide _) as [Hsub|]; simpl; [| discriminate].
  destruct (kwargs !! "numiter_lanczos") as [a|] eqn:Ha; [| discriminate].
  destruct (kwargs !! "max_bond_dimension") as [b|] eqn:Hb; [| discriminate].
  intros Hinit. exists a, b.
  split; [exact (kwargs_two kwargs _ _ a b Hsub Ha Hb) |].
  split; [apply (beartype_check_ok _ _ Hbt "numiter_lanczos" hint_int a);
          [sig_member | exact Ha] |].
  split; [apply (beartype_check_ok _ _ Hbt "max_bond_dimension" hint_int b);
          [sig_member | exact Hb] |].
  exact Hinit.
Qed.

Lemma TDVP2SiteParameters_call_ok_inv (kwargs : gmap string value) (p : TDVP2SiteParameters.t) :
  TDVP2SiteParameters.call kwargs = Ok p ->
  exists a b c,
    kwargs = {[ "numiter_lanczos" := a; "max_bond_dimension" := b;
                "relative_svd_tolerance" := c ]}
    /\ conforms hint_int a = true /\ conforms hint_int b = true
    /\ conforms hint_float c = true
    /\ TDVP2SiteParameters.__init__ a b c = Ok p.
Proof.
  unfold TDVP2SiteParameters.call.
  destruct (beartype_check _ _) as [[]|e1] eqn:Hbt; simpl; [| discriminate].
  unfold reject_unexpected.
  destruct (decide _) as [Hsub|]; simpl; [| discriminate].
  destruct (kwargs !! "numiter_lanczos") as [a|] eqn:Ha; [| discriminate].
  destruct (kwargs !! "max_bond_dimension") as [b|] eqn:Hb; [| discriminate].
  destruct (kwargs !! "relative_svd_tolerance") as [c|] eqn:Hc; [| discriminate].
  intros Hinit. exists a, b, c.
  split; [exact (kwargs_three kwargs _ _ _ a b c Hsub Ha Hb Hc) |].
  split; [apply (beartype_check_ok _ _ Hbt "numiter_lanczos" hint_int a);
          [sig_member | exact Ha] |].
  split; [apply (beartype_check_ok _ _ Hbt "max_bond_dimension" hint_int b);
          [sig_member | exact Hb] |].
  split; [apply (beartype_check_ok _ _ Hbt "relative_svd_tolerance" hint_float c);
          [sig_member | exact Hc] |].
  exact Hinit.
Qed.

Lemma TEBDParameters_call_ok_inv (kwargs : gmap string value) (p : TEBDParameters.t) :
  TEBDParameters.call kwargs = Ok p ->
  exists a b,
    kwargs = {[ "max_bond_dimension" := a; "svd_relative_tolerance" := b ]}
    /\ conforms hint_int a = true /\ conforms hint_float b = true
    /\ TEBDParameters.__init__ a b = Ok p.
Proof.
  unfold TEBDParameters.call.
  destruct (beartype_check _ _) as [[]|e1] eqn:Hbt; simpl; [| discriminate].
  unfold reject_unexpected.
  destruct (decide _) as [Hsub|]; simpl; [| discriminate].
  destruct (kwargs !! "max_bond_dimension") as [a|] eqn:Ha; [| discriminate].
  destruct (kwargs !! "svd_relative_tolerance") as [b|] eqn:Hb; [| discriminate].
  intros Hinit. exists a, b.
  split; [exact (kwargs_two kwargs _ _ a b Hsub Ha Hb) |].
  split; [apply (beartype_check_ok _ _ Hbt "max_bond_dimension" hint_int a);
          [sig_member | exact Ha] |].
  split; [apply (beartype_check_ok _ _ Hbt "svd_relative_tolerance" hint_float b);
          [sig_member | exact Hb] |].
  exact Hinit.
Qed.

(** What a constructor body returns holds the arguments it was given. *)
Lemma TDVP1SiteParameters_init_ok (a b : value) (p : TDVP1SiteParameters.t) :
  TDVP1SiteParameters.__init__ a b = Ok p ->
  p = {| TDVP1SiteParameters.numiter_lanczos := a;
         TDVP1SiteParameters.max_bond_dimension := b |}
  /\ le_zero a = Ok false /\ le_zero b = Ok false.
Proof.
  unfold TDVP1SiteParameters.__init__, positivity_test.
  destruct (le_zero a) as [[|]|] eqn:Ha; simpl; try discriminate.
  destruct (le_zero b) as [[|]|] eqn:Hb; simpl; try discriminate.
  intros [= <-]. auto.
Qed.

Lemma TDVP2SiteParameters_init_ok (a b c : value) (p : TDVP2SiteParameters.t) :
  TDVP2SiteParameters.__init__ a b c = Ok p ->
  p = {| TDVP2SiteParameters.numiter_lanczos := a;
         TDVP2SiteParameters.max_bond_dimension := b;
         TDVP2SiteParameters.relative_svd_tolerance := c |}
  /\ le_zero a = Ok false /\ le_zero b = Ok false /\ le_zero c = Ok false.
Proof.
  unfold TDVP2SiteParameters.__init__, positivity_test.
  destruct (le_zero a) as [[|]|] eqn:Ha; simpl; try discriminate.
  destruct (le_zero b) as [[|]|] eqn:Hb; simpl; try discriminate.
  destruct (le_zero c) as [[|]|] eqn:Hc; simpl; try discriminate.
  intros [= <-]. auto.
Qed.

Lemma TEBDParameters_init_ok (a b : value) (p : TEBDParameters.t) :
  TEBDParameters.__init__ a b = Ok p ->
  p = {| TEBDParameters.max_bond_dimension := a;
         TEBDParameters.svd_relative_tolerance := b |}
  /\ le_zero a = Ok false /\ le_zero b = Ok false.
Proof.
  unfold TEBDParameters.__init__, positivity_test.
  destruct (le_zero a) as [[|]|] eqn:Ha; simpl; try discriminate.
  destruct (le_zero b) as [[|]|] eqn:Hb; simpl; try discriminate.
  intros [= <-]. auto.
Qed.

(** The cases in which [generate_parameters] returns. *)
Lemma generate_parameters_ok_inv (mode : mode_argument) (kwargs : gmap string value)
    (p : parameters) :
  generate_parameters mode kwargs = Ok p ->
  (mode = Member TDVP1SITE /\ exists q, p = TDVP1 q /\ TDVP1SiteParameters.call kwargs = Ok q)
  \/ (mode = Member TDVP2SITE /\ exists q, p = TDVP2 q /\ TDVP2SiteParameters.call kwargs = Ok q)
  \/ (mode = Member TEBD /\ exists q, p = TEBDp q /\ TEBDParameters.call kwargs = Ok q).
Proof.
  intros H. destruct mode as [[| | |]|s]; unfold generate_parameters in H; simpl in H;
    try discriminate H.
  - destruct (TDVP1SiteParameters.call kwargs) as [q|]; [| discriminate H].
    injection H as <-. left. eauto.
  - destruct (TDVP2SiteParameters.call kwargs) as [q|]; [| discriminate H].
    injection H as <-. right. left. eauto.
  - destruct (TEBDParameters.call kwargs) as [q|]; [| discriminate H].
    injection H as <-. right. right. eauto.
Qed.

(** X4: when no keyword of the call addresses the beartype wrapper, a
    record [generate_parameters] returns holds exactly the keywords of the
    call, each under its own name and unconverted; building a record from
    its own attributes gives the record back. *)
Theorem generated_record_holds_keywords (mode : mode_argument) (kwargs : gmap string value)
    (p : parameters) :
  (forall k, k ∈ dom kwargs -> wrapper_keyword k = false) ->
  generate_parameters mode kwargs = Ok p ->
  attributes p = kwargs /\ generate_parameters mode (attributes p) = Ok p.
Proof.
  intros _ H.
  assert (Hattr : attributes p = kwargs).
  { destruct (generate_parameters_ok_inv mode kwargs p H)
      as [(_ & q & -> & Hq) | [(_ & q & -> & Hq) | (_ & q & -> & Hq)]].
    - destruct (TDVP1SiteParameters_call_ok_inv kwargs q Hq) as (a & b & -> & _ & _ & Hi).
      destruct (TDVP1SiteParameters_init_ok a b q Hi) as (-> & _). reflexivity.
    - destruct (TDVP2SiteParameters_call_ok_inv kwargs q Hq)
        as (a & b & c & -> & _ & _ & _ & Hi).
      destruct (TDVP2SiteParameters_init_ok a b c q Hi) as (-> & _). reflexivity.
    - destruct (TEBDParameters_call_ok_inv kwargs q Hq) as (a & b & -> & _ & _ & Hi).
      destruct (TEBDParameters_init_ok a b q Hi) as (-> & _). reflexivity. }
  split; [exact Hattr |]. rewrite Hattr. exact H.
Qed.

Lemma generated_record_holds_keywords_witness :
  attributes (TEBDp {| TEBDParameters.max_bond_dimension := PyInt 20;
                       TEBDParameters.svd_relative_tolerance := PyFloat one_thousandth |})
  = {[ "max_bond_dimension" := PyInt 20; "svd_relative_tolerance" := PyFloat one_thousandth ]}.
Proof.
  apply (generated_record_holds_keywords (Member TEBD)
           {[ "max_bond_dimension" := PyInt 20;
              "svd_relative_tolerance" := PyFloat one_thousandth ]}).
  - intros k Hk. rewrite dom_insert_L, dom_singleton_L in Hk.
    apply elem_of_union in Hk as [Hk | Hk]; apply elem_of_singleton in Hk;
      subst k; reflexivity.
  - vm_compute. reflexivity.
Defined.

(** X5: the three constructors accept pairwise different keyword sets: a
    keyword map that one mode accepts is refused under every other mode. *)
Theorem keywords_fit_one_mode (mode1 mode2 : mode_argument) (kwargs : gmap string value)
    (p1 p2 : parameters) :
  generate_parameters mode1 kwargs = Ok p1 ->
  generate_parameters mode2 kwargs = Ok p2 ->
  mode1 = mode2 /\ p1 = p2.
Proof.
  intros H1 H2.
  assert (Hmode : mode1 = mode2).
  { destruct (generate_parameters_ok_inv mode1 kwargs p1 H1)
      as [(-> & q1 & _ & Hq1) | [(-> & q1 & _ & Hq1) | (-> & q1 & _ & Hq1)]];
    destruct (generate_parameters_ok_inv mode2 kwargs p2 H2)
      as [(-> & q2 & _ & Hq2) | [(-> & q2 & _ & Hq2) | (-> & q2 & _ & Hq2)]];
    try reflexivity; exfalso.
    all: first
      [ destruct (TDVP1SiteParameters_call_ok_inv kwargs q1 Hq1) as (a1 & b1 & E1 & _)
      | destruct (TDVP2SiteParameters_call_ok_inv kwargs q1 Hq1) as (a1 & b1 & c1 & E1 & _)
      | destruct (TEBDParameters_call_ok_inv kwargs q1 Hq1) as (a1 & b1 & E1 & _) ].
    all: first
      [ destruct (TDVP1SiteParameters_call_ok_inv kwargs q2 Hq2) as (a2 & b2 & E2 & _)
      | destruct (TDVP2SiteParameters_call_ok_inv kwargs q2 Hq2) as (a2 & b2 & c2 & E2 & _)
      | destruct (TEBDParameters_call_ok_inv kwargs q2 Hq2) as (a2 & b2 & E2 & _) ].
    all: rewrite E1 in E2.
    all: first
      [ apply (f_equal (fun m : gmap string value => m !! "relative_svd_tolerance")) in E2;
        vm_compute in E2; discriminate E2
      | apply (f_equal (fun m : gmap string value => m !! "svd_relative_tolerance")) in E2;
        vm_compute in E2; discriminate E2
      | apply (f_equal (fun m : gmap string value => m !! "numiter_lanczos")) in E2;
        vm_compute in E2; discriminate E2 ]. }
  split; [exact Hmode |]. subst mode2. congruence.
Qed.

Lemma keywords_fit_one_mode_witness :
  Member TEBD = Member TEBD
  /\ TEBDp {| TEBDParameters.max_bond_dimension := PyInt 20;
              TEBDParameters.svd_relative_tolerance := PyFloat one_thousandth |}
     = TEBDp {| TEBDParameters.max_bond_dimension := PyInt 20;
                TEBDParameters.svd_relative_tolerance := PyFloat one_thousandth |}.
Proof.
  apply (keywords_fit_one_mode (Member TEBD) (Member TEBD)
           {[ "max_bond_dimension" := PyInt 20;
              "svd_relative_tolerance" := PyFloat one_thousandth ]});
    vm_compute; reflexivity.
Defined.

(** *** Argument mismatches *)

Lemma TDVP1SiteParameters_call_mismatch (kwargs : gmap string value) :
  dom kwargs ≠ list_to_set TDVP1SiteParameters.__slots__ ->
  exists e, TDVP1SiteParameters.call kwargs = Raise e /\ is_argument_mismatch e = true.
Proof.
  intros Hdom. unfold TDVP1SiteParameters.call.
  destruct (beartype_check_cases TDVP1SiteParameters.sig kwargs) as [-> | [name ->]];
    simpl; [| eexists; split; reflexivity].
  unfold reject_unexpected.
  destruct (decide _) as [Hsub | Hsub]; simpl; [| eexists; split; reflexivity].
  destruct (kwargs !! "numiter_lanczos") as [a|] eqn:Ha;
    [| eexists; split; reflexivity].
  destruct (kwargs !! "max_bond_dimension") as [b|] eqn:Hb;
    [| eexists; split; reflexivity].
  exfalso. apply Hdom.
  rewrite (kwargs_two kwargs _ _ a b Hsub Ha Hb). vm_compute. reflexivity.
Qed.

Lemma TEBDParameters_call_mismatch (kwargs : gmap string value) :
  dom kwargs ≠ list_to_set TEBDParameters.__slots__ ->
  exists e, TEBDParameters.call kwargs = Raise e /\ is_argument_mismatch e = true.
Proof.
  intros Hdom. unfold TEBDParameters.call.
  destruct (beartype_check_cases TEBDParameters.sig kwargs) as [-> | [name ->]];
    simpl; [| eexists; split; reflexivity].
  unfold reject_unexpected.
  destruct (decide _) as [Hsub | Hsub]; simpl; [| eexists; split; reflexivity].
  destruct (kwargs !! "max_bond_dimension") as [a|] eqn:Ha;
    [| eexists; split; reflexivity].
  destruct (kwargs !! "svd_relative_tolerance") as [b|] eqn:Hb;
    [| eexists; split; reflexivity].
  exfalso. apply Hdom.
  rewrite (kwargs_two kwargs _ _ a b Hsub Ha Hb). vm_compute. reflexivity.
Qed.

(** X6: under each of the three implemented modes, keywords that are not
    exactly the parameters of the constructor (one missing, one extra, none
    at all), none of them a keyword of the beartype wrapper itself, raise
    an argument mismatch. *)
Theorem keyword_set_mismatch (m : MPSIntegrationMode) (kwargs : gmap string value) :
  m <> RUNGEKUTTA ->
  (forall k, k ∈ dom kwargs -> wrapper_keyword k = false) ->
  dom kwargs ≠ list_to_set (constructor_sig m).*1 ->
  exists e, generate_parameters (Member m) kwargs = Raise e
            /\ is_argument_mismatch e = true.
Proof.
  intros Hm _ Hdom. destruct m; [| | | destruct (Hm eq_refl)].
  - destruct (TDVP1SiteParameters_call_mismatch kwargs Hdom) as (e & He & Hk).
    exists e. split; [| exact Hk].
    change (TDVP1 <$> TDVP1SiteParameters.call kwargs = Raise e). rewrite He. reflexivity.
  - destruct (TDVP2SiteParameters_call_mismatch kwargs Hdom) as (e & He & Hk).
    exists e. split; [| exact Hk].
    change (TDVP2 <$> TDVP2SiteParameters.call kwargs = Raise e). rewrite He. reflexivity.
  - destruct (TEBDParameters_call_mismatch kwargs Hdom) as (e & He & Hk).
    exists e. split; [| exact Hk].
    change (TEBDp <$> TEBDParameters.call kwargs = Raise e). rewrite He. reflexivity.
Qed.

Lemma keyword_set_mismatch_witness :
  exists e, generate_parameters (Member TDVP1SITE) ∅ = Raise e
            /\ is_argument_mismatch e = true.
Proof.
  apply (keyword_set_mismatch TDVP1SITE ∅).
  - discriminate.
  - intros k Hk. rewrite dom_empty_L in Hk. apply not_elem_of_empty in Hk. destruct Hk.
  - vm_compute. discriminate.
Defined.



(** *** Outcomes on well-typed keywords *)

(** X8: the single-site constructor on two integers: the number of
    Lanczos iterations is tested first, then the bond dimension, and the
    record is returned exactly when both are positive. *)
Theorem TDVP1SITE_outcome (k m : Z) :
  generate_parameters (Member TDVP1SITE)
    {[ "numiter_lanczos" := PyInt k; "max_bond_dimension" := PyInt m ]}
  = if k <=? 0 then Raise (ValueError "number of Lanczos iterations must be positive!")
    else if m <=? 0 then Raise (ValueError "maximum bond dimension must be positive!")
    else Ok (TDVP1 {| TDVP1SiteParameters.numiter_lanczos := PyInt k;
                      TDVP1SiteParameters.max_bond_dimension := PyInt m |}).
Proof.
  change (generate_parameters (Member TDVP1SITE)
            {[ "numiter_lanczos" := PyInt k; "max_bond_dimension" := PyInt m ]})
    with (TDVP1 <$> TDVP1SiteParameters.call
            {[ "numiter_lanczos" := PyInt k; "max_bond_dimension" := PyInt m ]}).
  rewrite TDVP1SiteParameters_call_typed by reflexivity.
  rewrite (TDVP1SiteParameters_init_order _ _ (k <=? 0) (m <=? 0)) by reflexivity.
  destruct (k <=? 0), (m <=? 0); reflexivity.
Qed.

(** X9: the TEBD constructor on an integer and a float: the bond
    dimension is tested first, then the tolerance with the float comparison
    [t <= 0]; the record is returned exactly when neither test fires. *)
Theorem TEBD_outcome (m : Z) (t : spec_float) :
  generate_parameters (Member TEBD)
    {[ "max_bond_dimension" := PyInt m; "svd_relative_tolerance" := PyFloat t ]}
  = if m <=? 0 then Raise (ValueError "maximum bond dimension must be positive!")
    else if SFleb t fzero then Raise (ValueError "SVD relative tolerance must be positive!")
    else Ok (TEBDp {| TEBDParameters.max_bond_dimension := PyInt m;
                      TEBDParameters.svd_relative_tolerance := PyFloat t |}).
Proof.
  change (generate_parameters (Member TEBD)
            {[ "max_bond_dimension" := PyInt m; "svd_relative_tolerance" := PyFloat t ]})
    with (TEBDp <$> TEBDParameters.call
            {[ "max_bond_dimension" := PyInt m; "svd_relative_tolerance" := PyFloat t ]}).
  rewrite TEBDParameters_call_typed by reflexivity.
  rewrite (TEBDParameters_init_order _ _ (m <=? 0) (SFleb t fzero)) by reflexivity.
  destruct (m <=? 0), (SFleb t fzero); reflexivity.
Qed.

(** X10: a [bool] is accepted where an [int] is declared: [True] passes
    the positivity test like 1 and is stored as it is, [False] is reported
    as not positive. *)
Theorem bool_counts_as_int (b : bool) (m : Z) :
  generate_parameters (Member TDVP1SITE)
    {[ "numiter_lanczos" := PyBool b; "max_bond_dimension" := PyInt m ]}
  = if negb b then Raise (ValueError "number of Lanczos iterations must be positive!")
    else if m <=? 0 then Raise (ValueError "maximum bond dimension must be positive!")
    else Ok (TDVP1 {| TDVP1SiteParameters.numiter_lanczos := PyBool b;
                      TDVP1SiteParameters.max_bond_dimension := PyInt m |}).
Proof.
  change (generate_parameters (Member TDVP1SITE)
            {[ "numiter_lanczos" := PyBool b; "max_bond_dimension" := PyInt m ]})
    with (TDVP1 <$> TDVP1SiteParameters.call
            {[ "numiter_lanczos" := PyBool b; "max_bond_dimension" := PyInt m ]}).
  rewrite TDVP1SiteParameters_call_typed by reflexivity.
  rewrite (TDVP1SiteParameters_init_order _ _ (negb b) (m <=? 0));
    [| destruct b; reflexivity | reflexivity].
  destruct b, (m <=? 0); reflexivity.
Qed.

(** *** What a returned record holds *)



(** *** The positivity test on every value *)

(** X12: [positivity_test] passes exactly the values that are greater than
    zero and the float NaN; every other [int], [bool] or [float] raises
    [ValueError] with the name followed by [" must be positive!"], and a
    value of another type raises [TypeError] from the comparison. *)
Theorem positivity_test_passes_iff (v : value) (name : string) :
  (positivity_test v name = Ok tt <-> gt_zero v = true \/ v = PyFloat fnan)
  /\ (conforms hint_int v || conforms hint_float v = true ->
      positivity_test v name <> Ok tt ->
      positivity_test v name = Raise (ValueError (name +:+ " must be positive!")))
  /\ (conforms hint_int v || conforms hint_float v = false ->
      exists why, positivity_test v name = Raise (TypeError why)).
Proof.
  split; [| split].
  - split.
    + intros H. apply le_zero_false. exact (positivity_test_ok_inv v name H).
    + intros [H | ->]; [| reflexivity].
      apply positivity_test_passes.
      destruct v as [|b|z|f|s]; simpl in H |- *; try discriminate H.
      * destruct b; [reflexivity | discriminate H].
      * f_equal. apply Z.ltb_lt in H. apply Z.leb_gt. exact H.
      * f_equal. destruct f as [s|s| |s m e]; try destruct s; try discriminate H; reflexivity.
  - intros Hnum Hne. unfold positivity_test in *.
    destruct v as [|b|z|f|s]; simpl in Hnum; try discriminate Hnum; simpl in *.
    + destruct (Z.b2z b <=? 0); [reflexivity | destruct (Hne eq_refl)].
    + destruct (z <=? 0); [reflexivity | destruct (Hne eq_refl)].
    + destruct (SFleb f fzero); [reflexivity | destruct (Hne eq_refl)].
  - intros Hnum. destruct v as [|b|z|f|s]; simpl in Hnum; try discriminate Hnum;
      eexists; reflexivity.
Qed.

Lemma positivity_test_passes_iff_witness :
  positivity_test (PyBool false) "number"
  = Raise (ValueError "number must be positive!").
Proof.
  apply (proj1 (proj2 (positivity_test_passes_iff (PyBool false) "number"))).
  - reflexivity.
  - discriminate.
Defined.

(** *** Calls of [pauli_operators] in sequence *)

(** The store after a call: the three results are new, hold the three
    matrices, and nothing else changed. *)
Lemma pauli_operators_alloc (σ : gmap positive np.carray) :
  let r := pauli_operators σ in
  r.2 !! r.1.1.1 = Some sigma_x_rows
  /\ r.2 !! r.1.1.2 = Some sigma_y_rows
  /\ r.2 !! r.1.2 = Some sigma_z_rows
  /\ (r.1.1.1 ∉ dom σ) /\ (r.1.1.2 ∉ dom σ) /\ (r.1.2 ∉ dom σ)
  /\ (r.1.1.1 ≠ r.1.1.2) /\ (r.1.1.2 ≠ r.1.2) /\ (r.1.1.1 ≠ r.1.2)
  /\ (forall l, l ∈ dom σ -> l ∈ dom r.2 /\ r.2 !! l = σ !! l)
  /\ (r.1.1.1 ∈ dom r.2) /\ (r.1.1.2 ∈ dom r.2) /\ (r.1.2 ∈ dom r.2).
Proof.
  set (a1 := np.array sigma_x_rows σ).
  set (a2 := np.array sigma_y_rows a1.2).
  set (a3 := np.array sigma_z_rows a2.2).
  cbv zeta. change (pauli_operators σ) with ((a1.1, a2.1, a3.1), a3.2). cbn [fst snd].
  assert (Hx : a1.1 ∉ dom σ) by apply array_fresh.
  assert (Hy : a2.1 ∉ dom a1.2) by apply array_fresh.
  assert (Hz : a3.1 ∉ dom a2.2) by apply array_fresh.
  assert (Hx1 : a1.1 ∈ dom a1.2) by apply array_dom_new.
  assert (Hy2 : a2.1 ∈ dom a2.2) by apply array_dom_new.
  assert (Hz3 : a3.1 ∈ dom a3.2) by apply array_dom_new.
  assert (Hx2 : a1.1 ∈ dom a2.2) by (apply array_dom; exact Hx1).
  split.
  { unfold a3. rewrite array_lookup_old by exact Hx2.
    unfold a2. rewrite array_lookup_old by exact Hx1.
    apply array_lookup_new. }
  split.
  { unfold a3. rewrite array_lookup_old by exact Hy2. apply array_lookup_new. }
  split; [apply array_lookup_new |].
  split; [exact Hx |].
  split; [intros H; apply Hy; apply array_dom; exact H |].
  split; [intros H; apply Hz; do 2 apply array_dom; exact H |].
  split; [intros E; apply Hy; rewrite <- E; exact Hx1 |].
  split; [intros E; apply Hz; rewrite <- E; exact Hy2 |].
  split; [intros E; apply Hz; rewrite <- E; exact Hx2 |].
  split.
  { intros l Hl. split; [do 3 apply array_dom; exact Hl |].
    unfold a3, a2, a1.
    rewrite !array_lookup_old; [reflexivity | exact Hl | | ];
      repeat apply array_dom; exact Hl. }
  split; [apply array_dom; exact Hx2 |].
  split; [apply array_dom; exact Hy2 |].
  exact Hz3.
Qed.

(** Two runs of the body of [pauli_operators] in sequence return six different
    arrays, and after the second call all six hold their matrices. *)
Theorem pauli_operators_calls_do_not_alias (σ : gmap positive np.carray) :
  let first := pauli_operators σ in
  let second := pauli_operators first.2 in
  NoDup [first.1.1.1; first.1.1.2; first.1.2; second.1.1.1; second.1.1.2; second.1.2]
  /\ second.2 !! first.1.1.1 = Some sigma_x_rows
  /\ second.2 !! first.1.1.2 = Some sigma_y_rows
  /\ second.2 !! first.1.2 = Some sigma_z_rows
  /\ second.2 !! second.1.1.1 = Some sigma_x_rows
  /\ second.2 !! second.1.1.2 = Some sigma_y_rows
  /\ second.2 !! second.1.2 = Some sigma_z_rows.
Proof.
  intros first second.
  destruct (pauli_operators_alloc σ)
    as (Lx & Ly & Lz & _ & _ & _ & Nxy & Nyz & Nxz & _ & Dx & Dy & Dz).
  destruct (pauli_operators_alloc first.2)
    as (Lx' & Ly' & Lz' & Fx & Fy & Fz & Nxy' & Nyz' & Nxz' & Old & _).
  fold first in Lx, Ly, Lz, Nxy, Nyz, Nxz, Dx, Dy, Dz.
  fold second in Lx', Ly', Lz', Fx, Fy, Fz, Nxy', Nyz', Nxz', Old.
  assert (Hne : forall a b : positive, a ∈ dom first.2 -> b ∉ dom first.2 -> a ≠ b)
    by (intros a b Ha Hb E; subst b; exact (Hb Ha)).
  split.
  { repeat (apply NoDup_cons_2; [rewrite ?not_elem_of_cons; repeat split |]);
      try apply not_elem_of_nil; try apply NoDup_nil_2;
      first [ assumption | apply Hne; assumption ]. }
  split; [rewrite (proj2 (Old _ Dx)); exact Lx |].
  split; [rewrite (proj2 (Old _ Dy)); exact Ly |].
  split; [rewrite (proj2 (Old _ Dz)); exact Lz |].
  split; [exact Lx' |]. split; [exact Ly' | exact Lz'].
Qed.

(** *** More of the Pauli algebra *)

Lemma pauli_rows_algebra :
  np.array_equal (np.conj_transpose sigma_x_rows) sigma_x_rows = true
  /\ np.array_equal (np.conj_transpose sigma_y_rows) sigma_y_rows = true
  /\ np.array_equal (np.conj_transpose sigma_z_rows) sigma_z_rows = true
  /\ np.ceqb (np.trace sigma_x_rows) (np.complex_of_int 0) = true
  /\ np.ceqb (np.trace sigma_y_rows) (np.complex_of_int 0) = true
  /\ np.ceqb (np.trace sigma_z_rows) (np.complex_of_int 0) = true
  /\ np.array_equal (np.matmul sigma_y_rows sigma_z_rows)
       (np.scale np.imag_unit sigma_x_rows) = true
  /\ np.array_equal (np.matmul sigma_z_rows sigma_x_rows)
       (np.scale np.imag_unit sigma_y_rows) = true
  /\ np.array_equal (np.matmul sigma_y_rows sigma_x_rows)
       (np.scale (np.complex_of_int (-1)) (np.matmul sigma_x_rows sigma_y_rows)) = true
  /\ np.array_equal (np.matmul sigma_z_rows sigma_y_rows)
       (np.scale (np.complex_of_int (-1)) (np.matmul sigma_y_rows sigma_z_rows)) = true
  /\ np.array_equal (np.matmul sigma_x_rows sigma_z_rows)
       (np.scale (np.complex_of_int (-1)) (np.matmul sigma_z_rows sigma_x_rows)) = true.
Proof. repeat (split; [vm_compute; reflexivity |]). vm_compute. reflexivity. Qed.

(** The three arrays the body of [pauli_operators] builds are Hermitian and
    traceless, [σy σz = i σx], [σz σx = i σy], and two different ones
    anticommute. *)
Theorem pauli_operators_hermitian_anticommuting (σ : gmap positive np.carray) :
  exists sx sy sz : np.carray,
    (pauli_operators σ).2 !! (pauli_operators σ).1.1.1 = Some sx
    /\ (pauli_operators σ).2 !! (pauli_operators σ).1.1.2 = Some sy
    /\ (pauli_operators σ).2 !! (pauli_operators σ).1.2 = Some sz
    /\ np.array_equal (np.conj_transpose sx) sx = true
    /\ np.array_equal (np.conj_transpose sy) sy = true
    /\ np.array_equal (np.conj_transpose sz) sz = true
    /\ np.ceqb (np.trace sx) (np.complex_of_int 0) = true
    /\ np.ceqb (np.trace sy) (np.complex_of_int 0) = true
    /\ np.ceqb (np.trace sz) (np.complex_of_int 0) = true
    /\ np.array_equal (np.matmul sy sz) (np.scale np.imag_unit sx) = true
    /\ np.array_equal (np.matmul sz sx) (np.scale np.imag_unit sy) = true
    /\ np.array_equal (np.matmul sy sx)
         (np.scale (np.complex_of_int (-1)) (np.matmul sx sy)) = true
    /\ np.array_equal (np.matmul sz sy)
         (np.scale (np.complex_of_int (-1)) (np.matmul sy sz)) = true
    /\ np.array_equal (np.matmul sx sz)
         (np.scale (np.complex_of_int (-1)) (np.matmul sz sx)) = true.
Proof.
  destruct (pauli_operators_alloc σ) as (Lx & Ly & Lz & _).
  exists sigma_x_rows, sigma_y_rows, sigma_z_rows.
  split; [exact Lx |]. split; [exact Ly |]. split; [exact Lz |].
  exact pauli_rows_algebra.
Qed.

(** *** More on the creation and annihilation arrays *)

(** The body of [creation_annihilation_operator] returns exactly when the
    dimension is not negative, and no assignment of its loop is ever out of
    bounds: it never raises [IndexError]. *)
Theorem creation_annihilation_operator_returns_iff (dimension : Z) :
  is_ok (creation_annihilation_operator dimension) = (0 <=? dimension)
  /\ forall axis, creation_annihilation_operator dimension <> Raise (IndexError axis).
Proof.
  destruct (Z_lt_le_dec dimension 1) as [Hlt | Hge].
  - destruct dimension as [|p|p]; [| lia |]; split; try reflexivity; intros axis; discriminate.
  - rewrite (creation_annihilation_operator_tabulate dimension Hge).
    split; [| intros axis; discriminate].
    simpl. symmetry. apply Z.leb_le. lia.
Qed.

(** For the body: the arrays of a smaller dimension are the upper left block of the
    arrays of a larger one. *)
Theorem creation_annihilation_operator_truncation (d d' : Z) (r k : nat) :
  1 <= d -> d <= d' ->
  (r < Z.to_nat d)%nat -> (k < Z.to_nat d)%nat ->
  exists c a c' a' : np.ndarray,
    creation_annihilation_operator d = Ok (c, a)
    /\ creation_annihilation_operator d' = Ok (c', a')
    /\ np.entry c r k = np.entry c' r k
    /\ np.entry a r k = np.entry a' r k.
Proof.
  intros Hd Hdd Hr Hk.
  do 4 eexists.
  split; [apply creation_annihilation_operator_tabulate; exact Hd |].
  split; [apply creation_annihilation_operator_tabulate; lia |].
  rewrite !tabulate_entry by lia.
  unfold annihilation_entry, creation_entry. split; f_equal.
  - destruct (decide (k = S r)) as [E | E].
    + rewrite !bool_decide_eq_true_2; [reflexivity | split; lia | split; lia].
    + rewrite !bool_decide_eq_false_2; [reflexivity | tauto | tauto].
  - destruct (decide (r = S k)) as [E | E].
    + rewrite !bool_decide_eq_true_2; [reflexivity | split; lia | split; lia].
    + rewrite !bool_decide_eq_false_2; [reflexivity | tauto | tauto].
Qed.

Lemma creation_annihilation_operator_truncation_witness :
  exists c a c' a' : np.ndarray,
    creation_annihilation_operator 3 = Ok (c, a)
    /\ creation_annihilation_operator 5 = Ok (c', a')
    /\ np.entry c 1 2 = np.entry c' 1 2
    /\ np.entry a 1 2 = np.entry a' 1 2.
Proof.
  apply (creation_annihilation_operator_truncation 3 5 1 2); simpl; lia.
Defined.

(** * The module [operators] as the file has it *)

Lemma import_operators_fails : import_operators = Raise (SyntaxError 8).
Proof. reflexivity. Qed.

(** With the colon the header compiles. *)
Lemma repaired_header_compiles :
  compile_header 8 (creation_annihilation_operator_header +:+ ":") = Ok tt.
Proof. reflexivity. Qed.

(** C5: the header of [creation_annihilation_operator] lacks its colon, so
    the module cannot be imported and the call returns no arrays for any
    dimension, although the body would build them. *)
Theorem creation_annihilation_operator_not_importable (dimension : Z) :
  from_operators (creation_annihilation_operator dimension) = Raise (SyntaxError 8).
Proof. unfold from_operators. rewrite import_operators_fails. reflexivity. Qed.

(** C6: for a dimension of zero or less the failure is the [SyntaxError]
    of the import, not an invalid-argument condition: the same defect. *)
Theorem creation_annihilation_operator_nonpositive_not_importable :
  from_operators (creation_annihilation_operator 0) = Raise (SyntaxError 8)
  /\ from_operators (creation_annihilation_operator (-3)) = Raise (SyntaxError 8)
  /\ forall msg, from_operators (creation_annihilation_operator 0) <> Raise (ValueError msg).
Proof.
  unfold from_operators. rewrite import_operators_fails.
  split; [reflexivity | split; [reflexivity | intros msg; discriminate]].
Qed.

(** C7: [pauli_operators] shares the module with the defective header, so
    a call of it does not succeed either. *)
Theorem pauli_operators_not_importable (σ : gmap positive np.carray) :
  from_operators (Ok (pauli_operators σ)) = Raise (SyntaxError 8).
Proof. unfold from_operators. rewrite import_operators_fails. reflexivity. Qed.
